(** * Timing and memory metrics of lsst.verify: a shallow embedding

    Source: python/lsst/verify/tasks/commonMetrics.py
    ([TimingMetricTask], [MemoryMetricTask]).

    The two tasks receive a [dict] holding values read from task metadata
    and turn it into an optional [Measurement].  The embedding keeps the
    shape of the Python code: dictionaries are finite maps with a lookup
    that raises [KeyError], exceptions are explicit, the logger is a list
    of records threaded through a small state-and-exception monad, and
    [try]/[except]/[else] is a combinator of that monad.  Floats and the
    values of quantities are binary64 numbers; an integer that becomes a
    quantity is converted to the nearest one. *)

From Stdlib Require Import ZArith Lia Bool Ascii String List.
From Stdlib Require Import Floats.SpecFloat.
From stdpp Require Import base strings gmap.

Local Open Scope Z_scope.

(** ** Python values carried by the metadata *)

(** A Python [float] is an IEEE-754 binary64 number; [spec_float] with
    [prec = 53] and [emax = 1024] is the standard library's executable
    specification of that format (round to nearest, ties to even). *)
Definition prec : Z := 53.
Definition emax : Z := 1024.

Definition float_valid (f : spec_float) : bool := valid_binary prec emax f.
Definition float_sub (x y : spec_float) : spec_float := SFsub prec emax x y.
Definition float_of_Z (n : Z) : spec_float := binary_normalize prec emax n 0 false.

(** The values a metadata entry can hold: [None], [bool], [int] (unbounded),
    [float] and [str]. *)
Inductive pyval : Type :=
| VNone
| VBool (b : bool)
| VInt (n : Z)
| VFloat (f : spec_float)
| VStr (s : string).

(** Exceptions: the builtin ones the tasks can meet, and
    [lsst.verify.tasks.MetricComputationError], which carries its message
    and the cause given by [raise ... from e]. *)
#[warnings="-register-all"] Inductive exn : Type :=
| KeyError (key : string)
| TypeError
| ValueError
| OverflowError
| MetricComputationError (msg : string) (cause : option exn).

Inductive outcome (A : Type) : Type :=
| Return (a : A)
| Raise (e : exn).
Arguments Return {A} a.
Arguments Raise {A} e.

Definition outcome_bind {A B} (o : outcome A) (k : A -> outcome B) : outcome B :=
  match o with
  | Return a => k a
  | Raise e => Raise e
  end.

Definition is_MetricComputationError (e : exn) : bool :=
  match e with
  | MetricComputationError _ _ => true
  | _ => false
  end.

(** ** Python arithmetic on metadata values *)

(** [bool] is a subclass of [int]: [True] is 1 and [False] is 0. *)
Definition int_of_bool (b : bool) : Z := if b then 1 else 0.

Definition as_int (v : pyval) : option Z :=
  match v with
  | VBool b => Some (int_of_bool b)
  | VInt n => Some n
  | _ => None
  end.

Definition is_numeric (v : pyval) : bool :=
  match v with
  | VBool _ | VInt _ | VFloat _ => true
  | _ => false
  end.

(** Conversion of an [int] operand to [float] in mixed arithmetic: the
    nearest double, or [OverflowError] when that is infinite. *)
Definition PyLong_AsDouble (n : Z) : outcome spec_float :=
  match float_of_Z n with
  | S754_infinity _ => Raise OverflowError
  | f => Return f
  end.

(** The binary operator [a - b]. *)
Definition py_sub (a b : pyval) : outcome pyval :=
  match a, b with
  | VFloat x, VFloat y => Return (VFloat (float_sub x y))
  | VFloat x, _ =>
      match as_int b with
      | Some n => outcome_bind (PyLong_AsDouble n) (fun y => Return (VFloat (float_sub x y)))
      | None => Raise TypeError
      end
  | _, VFloat y =>
      match as_int a with
      | Some m => outcome_bind (PyLong_AsDouble m) (fun x => Return (VFloat (float_sub x y)))
      | None => Raise TypeError
      end
  | _, _ =>
      match as_int a, as_int b with
      | Some m, Some n => Return (VInt (m - n))
      | _, _ => Raise TypeError
      end
  end.

(** Exact comparison of an integer with a float, as [int.__lt__] and
    [float.__lt__] do it (no rounding of the integer). *)
Definition Z_compare_float (n : Z) (f : spec_float) : option comparison :=
  match f with
  | S754_nan => None
  | S754_infinity s => Some (if s then Gt else Lt)
  | S754_zero _ => Some (n ?= 0)
  | S754_finite s m e =>
      Some (match e with
            | Zneg p => Z.shiftl n (Zpos p) ?= cond_Zopp s (Zpos m)
            | _ => n ?= cond_Zopp s (Z.shiftl (Zpos m) e)
            end)
  end.

(** The comparison [a < b] on numbers ([false] where Python raises or the
    operands are unordered). *)
Definition py_lt (a b : pyval) : bool :=
  match a, b with
  | VFloat x, VFloat y => SFltb x y
  | VFloat x, _ =>
      match as_int b with
      | Some n => match Z_compare_float n x with Some Gt => true | _ => false end
      | None => false
      end
  | _, VFloat y =>
      match as_int a with
      | Some m => match Z_compare_float m y with Some Lt => true | _ => false end
      | None => false
      end
  | _, _ =>
      match as_int a, as_int b with
      | Some m, Some n => m <? n
      | _, _ => false
      end
  end.

(** [v < 0]. *)
Definition is_negative (v : pyval) : bool := py_lt v (VInt 0).

(** ** The builtin [int()] *)

(** The interpreter and platform the task runs on: [sys.platform],
    [resource.getpagesize()] and [sys.get_int_max_str_digits()], the
    limit on the number of digits of a string that [int()] converts (0
    where there is no limit, as before CPython 3.11). *)
Class Platform : Type := {
  sys_platform : string;
  getpagesize : Z;
  int_max_str_digits : Z
}.

(** [float.__int__]: truncation toward zero; [nan] and the infinities are
    rejected with [ValueError] and [OverflowError]. *)
Definition float_trunc (f : spec_float) : outcome Z :=
  match f with
  | S754_nan => Raise ValueError
  | S754_infinity _ => Raise OverflowError
  | S754_zero _ => Return 0
  | S754_finite s m e => Return (cond_Zopp s (Z.shiftl (Zpos m) e))
  end.

(** The whitespace [int(str)] skips around the number in an ASCII string:
    tab, line feed, vertical tab, form feed, carriage return and space. *)
Definition py_isspace (c : ascii) : bool :=
  let n := Z.of_nat (nat_of_ascii c) in
  ((9 <=? n) && (n <=? 13)) || (n =? 32).

Fixpoint lstrip (cs : list ascii) : list ascii :=
  match cs with
  | c :: cs' => if py_isspace c then lstrip cs' else cs
  | [] => []
  end.

Definition strip (cs : list ascii) : list ascii :=
  rev (lstrip (rev (lstrip cs))).

Definition digit_of (c : ascii) : option Z :=
  let n := Z.of_nat (nat_of_ascii c) in
  if (48 <=? n) && (n <=? 57) then Some (n - 48) else None.

(** Decimal digits, a single underscore allowed between two digits.
    [after_digit] says whether the previous character was a digit. *)
Fixpoint parse_digits (acc : Z) (after_digit : bool) (cs : list ascii) : option Z :=
  match cs with
  | [] => if after_digit then Some acc else None
  | c :: cs' =>
      if Ascii.eqb c "_"%char then
        if after_digit then parse_digits acc false cs' else None
      else
        match digit_of c with
        | Some d => parse_digits (10 * acc + d) true cs'
        | None => None
        end
  end.

(** The number of digits of a literal (underscores do not count). *)
Definition count_digits (cs : list ascii) : Z :=
  Z.of_nat (length (List.filter (fun c => match digit_of c with Some _ => true | None => false end) cs)).

(** The limit on integer string conversion: it applies to a literal of
    more than 640 digits when a limit is set and the literal exceeds
    it. *)
Definition exceeds_digit_limit `{Platform} (digits : Z) : bool :=
  (640 <? digits) && (0 <? int_max_str_digits) && (int_max_str_digits <? digits).

(** [int(s)] for an ASCII string, in base 10: surrounding whitespace, an
    optional sign, then the digits, no more of them than the limit
    allows.  [None] stands for [ValueError]. *)
Definition int_of_str `{Platform} (s : string) : option Z :=
  match strip (list_ascii_of_string s) with
  | c :: cs =>
      let digits :=
        if Ascii.eqb c "-"%char || Ascii.eqb c "+"%char then cs else c :: cs in
      match parse_digits 0 false digits with
      | Some n =>
          if exceeds_digit_limit (count_digits digits) then None
          else Some (if Ascii.eqb c "-"%char then - n else n)
      | None => None
      end
  | [] => None
  end.

Definition py_int `{Platform} (v : pyval) : outcome Z :=
  match v with
  | VNone => Raise TypeError
  | VBool b => Return (int_of_bool b)
  | VInt n => Return n
  | VFloat f => float_trunc f
  | VStr s =>
      match int_of_str s with
      | Some n => Return n
      | None => Raise ValueError
      end
  end.

(** ** Quantities, configuration, measurements *)

(** The astropy units the tasks use. *)
Inductive unit_t : Type := u_second | u_byte | u_kibibyte.

(** An astropy quantity: a float64 value with a unit. *)
Record Quantity : Type := { q_value : spec_float; q_unit : unit_t }.

(** The conversion to float64 that building a quantity performs on the
    numbers the tasks multiply by a unit, the difference of the timing
    values (an [int] or a [float]) and the converted memory value (an
    [int]): a float is kept, an [int] becomes the nearest double, and an
    [int] beyond the range of a double raises [OverflowError].  No other
    value reaches a multiplication; the model answers [TypeError] for
    one. *)
Definition to_float (v : pyval) : outcome spec_float :=
  match v with
  | VFloat f => Return f
  | _ =>
      match as_int v with
      | Some n => PyLong_AsDouble n
      | None => Raise TypeError
      end
  end.

(** [v * unit]. *)
Definition mul_unit (v : pyval) (u : unit_t) : outcome Quantity :=
  outcome_bind (to_float v) (fun f => Return {| q_value := f; q_unit := u |}).



(** [TimeMethodMetricConfig]; [TimingMetricConfig] and [MemoryMetricConfig]
    are two names for it. *)
Record TimeMethodMetricConfig : Type := { target : string; metric : string }.
Abbreviation TimingMetricConfig := TimeMethodMetricConfig.
Abbreviation MemoryMetricConfig := TimeMethodMetricConfig.

(** Modelled from the spec: [lsst.verify.Name], the constructor of
    structured names, which is not part of commonMetrics.py.  It is a pure
    function that parses the configured metric string into a structured
    name or raises.  Both the type of names and the parser are parameters
    of the development. *)
Class NameParser : Type := {
  name_t : Type;
  Name : string -> outcome name_t
}.

(** Modelled from the spec: [lsst.verify.Measurement], a value object
    pairing a metric name with a physical quantity, plus free-form
    annotation fields (its notes, empty when it is created). *)
Record Measurement `{NameParser} : Type := {
  metric_name : name_t;
  quantity : Quantity;
  notes : gmap string string
}.

(** ** The task monad: a logger and exceptions *)

Inductive log_level : Type := DEBUG | INFO | WARNING | ERROR.
Record log_record : Type := { level : log_level; message : string }.

(** A computation reads and extends the log and ends with a value or an
    exception. *)
Definition M (A : Type) : Type := list log_record -> outcome A * list log_record.

#[global] Instance M_ret : MRet M := fun A a lg => (Return a, lg).
#[global] Instance M_bind : MBind M := fun A B k m lg =>
  match m lg with
  | (Return a, lg') => k a lg'
  | (Raise e, lg') => (Raise e, lg')
  end.

Definition raise {A} (e : exn) : M A := fun lg => (Raise e, lg).

Definition lift {A} (o : outcome A) : M A := fun lg => (o, lg).

(** [self.log.info(message)]. *)
Definition log_info (s : string) : M unit :=
  fun lg => (Return tt, lg ++ [{| level := INFO; message := s |}]).

(** [d[key]] on a dictionary. *)
Definition getitem (d : gmap string pyval) (key : string) : M pyval :=
  match d !! key with
  | Some v => mret v
  | None => raise (KeyError key)
  end.

(** [try: body / except <handler>: ... / else: orelse].  [handler e] is
    [None] when no [except] clause matches [e]; an exception raised by the
    handler or by the [else] suite is not caught. *)
Definition try_except_else {A B} (body : M A) (handler : exn -> option (M B))
    (orelse : A -> M B) : M B :=
  fun lg =>
    match body lg with
    | (Return a, lg') => orelse a lg'
    | (Raise e, lg') =>
        match handler e with
        | Some h => h lg'
        | None => (Raise e, lg')
        end
    end.

Definition is_not_None (v : pyval) : bool :=
  match v with
  | VNone => false
  | _ => true
  end.

(** [meas.notes[key] = text]. *)
Definition set_note `{NameParser} (meas : Measurement) (key text : string) : Measurement :=
  {| metric_name := metric_name meas;
     quantity := quantity meas;
     notes := <[key := text]> (notes meas) |}.

(** [s.startswith(pre)]. *)
Definition startswith (s pre : string) : bool := String.prefix pre s.

(** ** TimingMetricTask *)

Module TimingMetricTask.
Section Task.
Context `{NameParser}.

Definition getInputMetadataKeys (config : TimingMetricConfig) : gmap string string :=
  let keyBase := target config in
  {[ "StartTime" := keyBase +:+ "StartCpuTime";
     "EndTime" := keyBase +:+ "EndCpuTime" ]}.

Definition getOutputMetricName (config : TimingMetricConfig) : M name_t :=
  lift (Name (metric config)).

Definition makeMeasurement (config : TimingMetricConfig)
    (timings : gmap string pyval) : M (option Measurement) :=
  start ← getitem timings "StartTime";
  present ← (if is_not_None start then mret true
             else e ← getitem timings "EndTime"; mret (is_not_None e));
  if (present : bool) then
    try_except_else
      (e ← getitem timings "EndTime";
       s ← getitem timings "StartTime";
       lift (py_sub e s))
      (fun ex =>
         match ex with
         | TypeError => Some (raise (MetricComputationError "Invalid metadata" None))
         | _ => None
         end)
      (fun totalTime =>
         name ← getOutputMetricName config;
         q ← lift (mul_unit totalTime u_second);
         let meas := {| metric_name := name; quantity := q; notes := ∅ |} in
         let meas := set_note meas "estimator" "pipe.base.timeMethod" in
         mret (Some meas))
  else
    log_info ("Nothing to do: no timing information for " +:+ target config +:+ " found.");;
    mret None.
End Task.
End TimingMetricTask.

(** ** MemoryMetricTask *)

Module MemoryMetricTask.
Section Task.
Context `{NameParser} `{Platform}.

Definition getInputMetadataKeys (config : MemoryMetricConfig) : gmap string string :=
  let keyBase := target config in
  {[ "EndMemory" := keyBase +:+ "EndMaxResidentSetSize" ]}.

Definition getOutputMetricName (config : MemoryMetricConfig) : M name_t :=
  lift (Name (metric config)).

Definition _addUnits (memory : Z) : M Quantity :=
  if startswith sys_platform "darwin" then
    lift (mul_unit (VInt memory) u_byte)
  else if startswith sys_platform "sunos" || startswith sys_platform "solaris" then
    lift (mul_unit (VInt (memory * getpagesize)) u_byte)
  else
    lift (mul_unit (VInt memory) u_kibibyte).

Definition makeMeasurement (config : MemoryMetricConfig)
    (memory : gmap string pyval) : M (option Measurement) :=
  endMemory ← getitem memory "EndMemory";
  if is_not_None endMemory then
    try_except_else
      (v ← getitem memory "EndMemory";
       lift (py_int v))
      (fun e =>
         match e with
         | ValueError | TypeError =>
             Some (raise (MetricComputationError "Invalid metadata" (Some e)))
         | _ => None
         end)
      (fun maxMemory =>
         name ← getOutputMetricName config;
         q ← _addUnits maxMemory;
         let meas := {| metric_name := name; quantity := q; notes := ∅ |} in
         let meas := set_note meas "estimator" "pipe.base.timeMethod" in
         mret (Some meas))
  else
    log_info ("Nothing to do: no memory information for " +:+ target config +:+ " found.");;
    mret None.
End Task.
End MemoryMetricTask.

(** ** Sample collaborators, used to run the tasks on concrete inputs *)

(** The text before the first dot, and the text after it if there is
    one. *)
Fixpoint split_dot (s : string) : string * option string :=
  match s with
  | EmptyString => (EmptyString, None)
  | String c s' =>
      if Ascii.eqb c "."%char then (EmptyString, Some s')
      else let (hd, tl) := split_dot s' in (String c hd, tl)
  end.

(** A sample parser of metric names: it accepts [package.metric] (one
    dot, both parts non-empty) and raises [TypeError] on anything else, as
    the tests expect of "verify.DummyTime" and "foo.bar.FooBarTime". *)
Definition dotted_Name (s : string) : outcome (string * string) :=
  match split_dot s with
  | (package, Some rest) =>
      match split_dot rest with
      | (name, None) =>
          if String.eqb package "" || String.eqb name "" then Raise TypeError
          else Return (package, name)
      | _ => Raise TypeError
      end
  | _ => Raise TypeError
  end.

Definition dotted : NameParser := {| name_t := string * string; Name := dotted_Name |}.

Definition linux : Platform :=
  {| sys_platform := "linux"; getpagesize := 4096; int_max_str_digits := 4300 |}.
Definition sunos : Platform :=
  {| sys_platform := "sunos5"; getpagesize := 8192; int_max_str_digits := 0 |}.

(** ** Predicates on inputs used in the statements *)

Definition is_float (v : pyval) : bool :=
  match v with
  | VFloat _ => true
  | _ => false
  end.

Definition is_ascii_char (c : ascii) : bool := Z.of_nat (nat_of_ascii c) <? 128.

(** The values the model stands for: a float is a binary64 number and a
    string is an ASCII string. *)
Definition wf_value (v : pyval) : bool :=
  match v with
  | VFloat f => float_valid f
  | VStr s => forallb is_ascii_char (list_ascii_of_string s)
  | _ => true
  end.

(** An [int] operand whose nearest double is finite ([float(n)] does not
    overflow); floats pass. *)
Definition fits_double (v : pyval) : bool :=
  match as_int v with
  | Some n =>
      match float_of_Z n with
      | S754_infinity _ => false
      | _ => true
      end
  | None => true
  end.

(** An [int] operand that a double holds exactly: its magnitude is below
    2^53. *)
Definition small_int (v : pyval) : bool :=
  match as_int v with
  | Some n => Z.abs n <? 2 ^ 53
  | None => false
  end.

(** Two numbers that [-] accepts: in mixed arithmetic the [int] operand
    must convert to a [float]. *)
Definition sub_defined (e s : pyval) : bool :=
  is_numeric e && is_numeric s &&
  (negb (is_float s) || fits_double e) &&
  (negb (is_float e) || fits_double s).

(** Two numbers whose difference becomes a quantity: two floats; a float
    and an [int] within the range of a double; or two integers whose
    difference is within the range of a double. *)
Definition duration_defined (e s : pyval) : bool :=
  match e, s with
  | VFloat _, VFloat _ => true
  | VFloat _, _ => is_numeric s && fits_double s
  | _, VFloat _ => is_numeric e && fits_double e
  | _, _ =>
      match as_int e, as_int s with
      | Some m, Some n => fits_double (VInt (m - n))
      | _, _ => false
      end
  end.

(** Two numbers whose difference is computed without losing the order:
    as [duration_defined], with the [int] beside a float below 2^53 in
    magnitude. *)
Definition exact_operands (e s : pyval) : bool :=
  match e, s with
  | VFloat _, VFloat _ => true
  | VFloat _, _ => small_int s
  | _, VFloat _ => small_int e
  | _, _ =>
      match as_int e, as_int s with
      | Some m, Some n => fits_double (VInt (m - n))
      | _, _ => false
      end
  end.

(** The values [int()] converts. *)
Definition int_accepts `{Platform} (v : pyval) : bool :=
  match py_int v with
  | Return _ => true
  | Raise _ => false
  end.

(** The integer [_addUnits] multiplies by the unit, and that unit: the
    raw value, or the raw value times the page size, in bytes or in
    kibibytes. *)
Definition page_scaled `{Platform} (n : Z) : Z :=
  if startswith sys_platform "darwin" then n
  else if startswith sys_platform "sunos" || startswith sys_platform "solaris"
       then n * getpagesize
       else n.

Definition memory_unit `{Platform} : unit_t :=
  if startswith sys_platform "darwin" then u_byte
  else if startswith sys_platform "sunos" || startswith sys_platform "solaris"
       then u_byte
       else u_kibibyte.

(** The values the memory task turns into a measurement: [int()] converts
    them and the scaled integer is within the range of a double. *)
Definition memory_usable `{Platform} (v : pyval) : bool :=
  match py_int v with
  | Return n => fits_double (VInt (page_scaled n))
  | Raise _ => false
  end.

(** A decimal literal given by its digits, and its value. *)
Definition digit_char (d : Z) : ascii := ascii_of_nat (Z.to_nat (48 + d)).

Definition decimal_string (ds : list Z) : string :=
  string_of_list_ascii (map digit_char ds).

Definition decimal_value (ds : list Z) : Z :=
  fold_left (fun acc d => 10 * acc + d) ds 0.

Definition is_digit (d : Z) : Prop := 0 <= d <= 9.

(** The measurement both tasks build from a name and a quantity. *)
Definition annotated `{NameParser} (name : name_t) (q : Quantity) : Measurement :=
  set_note {| metric_name := name; quantity := q; notes := ∅ |}
           "estimator" "pipe.base.timeMethod".

(** ** Concrete inputs *)

Definition timing_config : TimingMetricConfig :=
  {| target := "NotARealTask.run"; metric := "verify.DummyTime" |}.

Definition memory_config : MemoryMetricConfig :=
  {| target := "NotARealTask.run"; metric := "verify.DummyMemory" |}.

Definition bad_metric_config : TimingMetricConfig :=
  {| target := "NotARealTask.run"; metric := "foo.bar.FooBarTime" |}.

(** 1.5, 4.0 and 2^53 + 4 as doubles. *)
Definition f_1_5 : spec_float := S754_finite false 6755399441055744 (-52).
Definition f_4 : spec_float := S754_finite false 4503599627370496 (-50).
Definition f_2p53_4 : spec_float := S754_finite false 4503599627370498 1.

Definition timings_of (s e : pyval) : gmap string pyval :=
  {[ "StartTime" := s; "EndTime" := e ]}.

Definition memory_of (v : pyval) : gmap string pyval :=
  {[ "EndMemory" := v ]}.

(** ** Further predicates on values and results *)

(** The sign of a double: [Lt] for a negative number or minus infinity,
    [Eq] for a zero, [Gt] for a positive number or plus infinity; a nan
    has none. *)
Definition float_sign (f : spec_float) : option comparison :=
  match f with
  | S754_nan => None
  | S754_zero _ => Some Eq
  | S754_infinity sg | S754_finite sg _ _ => Some (if sg then Lt else Gt)
  end.

(** [0 < v]. *)
Definition is_positive (v : pyval) : bool := py_lt (VInt 0) v.

(** A run that started with the log [lg] either returned [None] and
    appended one INFO record, or returned something else (a measurement or
    an exception) and left the log as it was. *)
Definition logs_only_on_None {A} (lg : list log_record)
    (r : outcome (option A) * list log_record) : Prop :=
  (fst r = Return None /\
   exists text, snd r = lg ++ [{| level := INFO; message := text |}]) \/
  (fst r <> Return None /\ snd r = lg).

(** The exceptions the bodies of the two [makeMeasurement] can raise
    themselves. *)
Definition own_exception (ex : exn) : Prop :=
  (exists key, ex = KeyError key) \/
  (exists cause, ex = MetricComputationError "Invalid metadata" cause) \/
  ex = OverflowError.

(** A configuration for another method, with the metric of
    [timing_config]. *)
Definition other_target_config : TimingMetricConfig :=
  {| target := "NotARealTask.runDataRef"; metric := "verify.DummyTime" |}.

(** * Properties *)

(** ** Binary64 subtraction keeps the strict order

    The lemmas below follow [SFsub] through its rounding steps: the shift
    that brings a mantissa back to 53 bits never shifts all of its digits
    out, so the difference of two distinct doubles is never rounded to
    zero. *)

Lemma digits2_pos_bounds (p : positive) :
  2 ^ (Zpos (digits2_pos p) - 1) <= Zpos p < 2 ^ Zpos (digits2_pos p).
Proof.
  induction p as [p IH|p IH|]; simpl digits2_pos.
  - rewrite Pos2Z.inj_succ.
    replace (Z.succ (Zpos (digits2_pos p)) - 1) with (Z.succ (Zpos (digits2_pos p) - 1)) by lia.
    rewrite !Z.pow_succ_r by lia. lia.
  - rewrite Pos2Z.inj_succ.
    replace (Z.succ (Zpos (digits2_pos p)) - 1) with (Z.succ (Zpos (digits2_pos p) - 1)) by lia.
    rewrite !Z.pow_succ_r by lia. lia.
  - simpl. lia.
Qed.

Lemma iter_xO_pow (m d : positive) :
  Zpos (Pos.iter xO m d) = Zpos m * 2 ^ Zpos d.
Proof.
  induction d as [|d IH] using Pos.peano_ind.
  - simpl. lia.
  - rewrite Pos.iter_succ, Pos2Z.inj_succ, Z.pow_succ_r by lia.
    rewrite Pos2Z.inj_xO, IH. lia.
Qed.

Lemma shl_align_value (m : positive) (e e' : Z) :
  e' <= e -> Zpos (fst (shl_align m e e')) = Zpos m * 2 ^ (e - e').
Proof.
  intros Hle. unfold shl_align.
  destruct (e' - e) as [|d|d] eqn:Hd; simpl fst.
  - replace (e - e') with 0 by lia. lia.
  - lia.
  - rewrite iter_xO_pow. f_equal. f_equal. lia.
Qed.

(** Shifting a positive mantissa right by fewer places than it has digits
    leaves a positive mantissa. *)
Lemma iter_shr_1_pos (n : positive) :
  forall (p : positive) (r s : bool),
    (n < digits2_pos p)%positive ->
    exists q r' s',
      SpecFloat.iter_pos shr_1 n {| shr_m := Zpos p; shr_r := r; shr_s := s |} =
        {| shr_m := Zpos q; shr_r := r'; shr_s := s' |} /\
      (digits2_pos q + n = digits2_pos p)%positive.
Proof.
  assert (Hone : forall p r s, (1 < digits2_pos p)%positive ->
            exists q r' s',
              shr_1 {| shr_m := Zpos p; shr_r := r; shr_s := s |} =
                {| shr_m := Zpos q; shr_r := r'; shr_s := s' |} /\
              (digits2_pos q + 1 = digits2_pos p)%positive).
  { intros [p|p|] r s Hd; simpl in *; try lia; eauto 6 using Pos.add_1_r. }
  induction n as [n IH|n IH|]; intros p r s Hn; cbn [SpecFloat.iter_pos].
  - destruct (Hone p r s) as (q0 & r0 & s0 & E0 & D0); [lia|]. rewrite E0.
    destruct (IH q0 r0 s0) as (q1 & r1 & s1 & E1 & D1); [lia|]. rewrite E1.
    destruct (IH q1 r1 s1) as (q2 & r2 & s2 & E2 & D2); [lia|]. rewrite E2.
    exists q2, r2, s2. split; [reflexivity|lia].
  - destruct (IH p r s) as (q1 & r1 & s1 & E1 & D1); [lia|]. rewrite E1.
    destruct (IH q1 r1 s1) as (q2 & r2 & s2 & E2 & D2); [lia|]. rewrite E2.
    exists q2, r2, s2. split; [reflexivity|lia].
  - apply Hone. exact Hn.
Qed.

Lemma shr_fexp_pos (p : positive) (e : Z) (l : location) :
  emin prec emax <= e ->
  exists q r s e',
    shr_fexp prec emax (Zpos p) e l = ({| shr_m := Zpos q; shr_r := r; shr_s := s |}, e') /\
    emin prec emax <= e'.
Proof.
  intros He. unfold shr_fexp, shr, fexp, emin, prec, emax in *. simpl Zdigits2.
  set (rec := shr_record_of_loc (Zpos p) l).
  assert (Hrec : exists r s, rec = {| shr_m := Zpos p; shr_r := r; shr_s := s |}).
  { unfold rec. destruct l as [|[]]; simpl; eauto. }
  destruct Hrec as (r & s & ->).
  destruct (Z.max (Zpos (digits2_pos p) + e - 53) (3 - 1024 - 53) - e) as [|n|n] eqn:Hn.
  - exists p, r, s, e. split; [reflexivity|lia].
  - destruct (iter_shr_1_pos n p r s) as (q & r' & s' & E & D); [lia|].
    rewrite E. exists q, r', s', (e + Zpos n). split; [reflexivity|lia].
  - exists p, r, s, e. split; [reflexivity|lia].
Qed.

Lemma round_nearest_even_pos (q : positive) (l : location) :
  exists q', round_nearest_even (Zpos q) l = Zpos q'.
Proof.
  destruct l as [|[]]; simpl; eauto.
  destruct q; simpl; eauto.
Qed.

Lemma binary_round_aux_signed (sx : bool) (p : positive) (e : Z) (l : location) :
  emin prec emax <= e ->
  (exists m e', binary_round_aux prec emax sx (Zpos p) e l = S754_finite sx m e') \/
  binary_round_aux prec emax sx (Zpos p) e l = S754_infinity sx.
Proof.
  intros He. unfold binary_round_aux.
  destruct (shr_fexp_pos p e l He) as (q & r & s & e' & E & He'). rewrite E.
  simpl shr_m.
  destruct (round_nearest_even_pos q (loc_of_shr_record {| shr_m := Zpos q; shr_r := r; shr_s := s |}))
    as (q' & ->).
  destruct (shr_fexp_pos q' e' loc_Exact He') as (q2 & r2 & s2 & e2 & E2 & He2). rewrite E2.
  simpl shr_m. destruct (e2 <=? emax - prec); eauto.
Qed.

Lemma binary_round_signed (sx : bool) (p : positive) (e : Z) :
  emin prec emax <= e ->
  (exists m e', binary_round prec emax sx p e = S754_finite sx m e') \/
  binary_round prec emax sx p e = S754_infinity sx.
Proof.
  intros He. unfold binary_round.
  destruct (shl_align p e (fexp prec emax (Zpos (digits2_pos p) + e))) as [mz ez] eqn:E.
  apply binary_round_aux_signed.
  unfold shl_align in E.
  destruct (fexp prec emax (Zpos (digits2_pos p) + e) - e) eqn:Hd; inversion E; subst; try lia.
  unfold fexp. lia.
Qed.

Lemma valid_finite_inv (s : bool) (m : positive) (e : Z) :
  float_valid (S754_finite s m e) = true ->
  Z.max (Zpos (digits2_pos m) + e - 53) (-1074) = e /\ e <= 971.
Proof.
  unfold float_valid, valid_binary, bounded, canonical_mantissa, fexp, emin, prec, emax.
  rewrite andb_true_iff, Z.eqb_eq, Z.leb_le. lia.
Qed.

(** On valid doubles, the order is the order of the exact values: the
    mantissas, brought to the smaller exponent, compare as integers. *)
Lemma SFcompare_Lt_aligned (sx sy : bool) (mx my : positive) (ex ey : Z) :
  float_valid (S754_finite sx mx ex) = true ->
  float_valid (S754_finite sy my ey) = true ->
  SFcompare (S754_finite sx mx ex) (S754_finite sy my ey) = Some Lt ->
  cond_Zopp sx (Zpos mx * 2 ^ (ex - Z.min ex ey)) <
  cond_Zopp sy (Zpos my * 2 ^ (ey - Z.min ex ey)).
Proof.
  intros Vx Vy Hc.
  apply valid_finite_inv in Vx, Vy. destruct Vx as [Cx Bx], Vy as [Cy By].
  pose proof (digits2_pos_bounds mx) as Dx.
  pose proof (digits2_pos_bounds my) as Dy.
  assert (Px : 0 < 2 ^ (ex - Z.min ex ey)) by (apply Z.pow_pos_nonneg; lia).
  assert (Py : 0 < 2 ^ (ey - Z.min ex ey)) by (apply Z.pow_pos_nonneg; lia).
  assert (Big : forall (a b : positive) (ea eb : Z),
            Z.max (Zpos (digits2_pos a) + ea - 53) (-1074) = ea ->
            Z.max (Zpos (digits2_pos b) + eb - 53) (-1074) = eb ->
            ea < eb ->
            Zpos a * 2 ^ (ea - Z.min ea eb) < Zpos b * 2 ^ (eb - Z.min ea eb)).
  { intros a b ea eb Ca Cb Hlt.
    pose proof (digits2_pos_bounds a) as Da.
    pose proof (digits2_pos_bounds b) as Db.
    replace (ea - Z.min ea eb) with 0 by lia.
    replace (eb - Z.min ea eb) with (eb - ea) by lia.
    assert (Zpos (digits2_pos b) = 53) as Eb by lia.
    rewrite Eb in Db. simpl Z.sub in Db.
    assert (2 ^ Zpos (digits2_pos a) <= 2 ^ 53) by (apply Z.pow_le_mono_r; lia).
    assert (2 ^ 1 <= 2 ^ (eb - ea)) by (apply Z.pow_le_mono_r; lia).
    change (2 ^ 1) with 2 in *.
    rewrite Z.pow_0_r, Z.mul_1_r.
    change (2 ^ 53) with (2 * 2 ^ 52) in *.
    nia. }
  simpl in Hc.
  destruct sx, sy; unfold cond_Zopp; try discriminate; try lia.
  - destruct (Z.compare_spec ex ey) as [->|Hlt|Hgt]; try discriminate.
    + rewrite Z.min_id, Z.sub_diag, Z.pow_0_r, !Z.mul_1_r.
      change (Pos.compare_cont Eq mx my) with (Pos.compare mx my) in Hc.
      destruct (Pos.compare_spec mx my); simpl in Hc; try discriminate; lia.
    + specialize (Big my mx ey ex Cy Cx ltac:(lia)).
      rewrite (Z.min_comm ey ex) in Big. lia.
  - destruct (Z.compare_spec ex ey) as [->|Hlt|Hgt]; try discriminate.
    + rewrite Z.min_id, Z.sub_diag, Z.pow_0_r, !Z.mul_1_r.
      change (Pos.compare_cont Eq mx my) with (Pos.compare mx my) in Hc.
      destruct (Pos.compare_spec mx my); simpl in Hc; try discriminate; lia.
    + exact (Big mx my ex ey Cx Cy Hlt).
Qed.

(** Subtraction of doubles does not lose the order: if [x < y] then
    [x - y] is a negative number (or minus infinity), never a zero. *)
Lemma float_sub_negative (x y : spec_float) :
  float_valid x = true -> float_valid y = true ->
  SFltb x y = true ->
  SFltb (float_sub x y) (S754_zero false) = true.
Proof.
  intros Vx Vy Hlt. unfold SFltb in Hlt.
  destruct (SFcompare x y) as [[]|] eqn:Hc; try discriminate. clear Hlt.
  destruct x as [sx|sx| |sx mx ex], y as [sy|sy| |sy my ey]; try discriminate.
  all: try solve [destruct sx, sy; try discriminate; reflexivity].
  pose proof (SFcompare_Lt_aligned _ _ _ _ _ _ Vx Vy Hc) as Hz.
  apply valid_finite_inv in Vx, Vy.
  unfold float_sub, SFsub; cbv zeta.
  rewrite !shl_align_value by lia.
  destruct (cond_Zopp sx (Zpos mx * 2 ^ (ex - Z.min ex ey)) -
            cond_Zopp sy (Zpos my * 2 ^ (ey - Z.min ex ey))) as [|p|p] eqn:Ez; try lia.
  cbn [binary_normalize].
  destruct (binary_round_signed true p (Z.min ex ey)) as [(m & e' & ->)| ->];
    [unfold emin, prec, emax; lia|reflexivity|reflexivity].
Qed.

(** ** The sign of a difference of doubles *)

Lemma SFcompare_swap (x y : spec_float) :
  SFcompare y x = option_map CompOpp (SFcompare x y).
Proof.
  destruct x as [sx|sx| |sx mx ex], y as [sy|sy| |sy my ey]; try reflexivity;
    try (destruct sx; reflexivity); try (destruct sy; reflexivity);
    try (destruct sx, sy; reflexivity).
  assert (Hp : Pos.compare_cont Eq my mx = CompOpp (Pos.compare_cont Eq mx my))
    by exact (Pos.compare_antisym mx my).
  assert (Hz : (ey ?= ex) = CompOpp (ex ?= ey)) by exact (Z.compare_antisym ex ey).
  cbn [SFcompare option_map]. rewrite Hz, Hp.
  destruct sx, sy; try reflexivity;
    destruct (ex ?= ey); cbn [CompOpp]; try reflexivity.
Qed.

Lemma binary_round_sign (sx : bool) (p : positive) (e : Z) :
  emin prec emax <= e ->
  float_sign (binary_round prec emax sx p e) = Some (if sx then Lt else Gt).
Proof.
  intros He. destruct (binary_round_signed sx p e He) as [(m & e' & ->)| ->]; reflexivity.
Qed.

(** The sign of a difference of doubles is the order of the operands. *)
Lemma float_sub_sign (x y : spec_float) (c : comparison) :
  float_valid x = true -> float_valid y = true ->
  SFcompare x y = Some c ->
  c <> Eq ->
  float_sign (float_sub x y) = Some c.
Proof.
  intros Vx Vy Hc Hne.
  destruct x as [sx|sx| |sx mx ex], y as [sy|sy| |sy my ey]; try discriminate.
  all: try solve [destruct sx, sy; cbn in Hc |- *; congruence].
  all: try solve [destruct sx; cbn in Hc |- *; congruence].
  all: try solve [destruct sy; cbn in Hc |- *; congruence].
  destruct c; [congruence| |].
  - pose proof (SFcompare_Lt_aligned _ _ _ _ _ _ Vx Vy Hc) as Hz.
    apply valid_finite_inv in Vx, Vy.
    unfold float_sub, SFsub; cbv zeta.
    rewrite !shl_align_value by lia.
    destruct (cond_Zopp sx (Zpos mx * 2 ^ (ex - Z.min ex ey)) -
              cond_Zopp sy (Zpos my * 2 ^ (ey - Z.min ex ey))) as [|p|p] eqn:Ez; try lia.
    cbn [binary_normalize]. apply (binary_round_sign true).
    unfold emin, prec, emax; lia.
  - assert (Hc' : SFcompare (S754_finite sy my ey) (S754_finite sx mx ex) = Some Lt).
    { rewrite SFcompare_swap, Hc. reflexivity. }
    pose proof (SFcompare_Lt_aligned _ _ _ _ _ _ Vy Vx Hc') as Hz.
    rewrite (Z.min_comm ey ex) in Hz.
    apply valid_finite_inv in Vx, Vy.
    unfold float_sub, SFsub; cbv zeta.
    rewrite !shl_align_value by lia.
    destruct (cond_Zopp sx (Zpos mx * 2 ^ (ex - Z.min ex ey)) -
              cond_Zopp sy (Zpos my * 2 ^ (ey - Z.min ex ey))) as [|p|p] eqn:Ez; try lia.
    cbn [binary_normalize]. apply (binary_round_sign false).
    unfold emin, prec, emax; lia.
Qed.

Lemma float_sub_sign_Eq (x y : spec_float) :
  float_valid x = true -> float_valid y = true ->
  SFcompare x y = Some Eq ->
  float_sign (float_sub x y) = Some Eq \/ float_sub x y = S754_nan.
Proof.
  intros Vx Vy Hc.
  destruct x as [sx|sx| |sx mx ex], y as [sy|sy| |sy my ey]; try discriminate.
  all: try solve [destruct sx, sy; cbn in Hc |- *; try discriminate; auto].
  all: try solve [destruct sx; cbn in Hc |- *; try discriminate; auto].
  all: try solve [destruct sy; cbn in Hc |- *; try discriminate; auto].
  left. cbn in Hc.
  assert (sx = sy /\ ex = ey /\ mx = my) as (-> & -> & ->).
  { destruct sx, sy; try discriminate;
      destruct (Z.compare_spec ex ey); try discriminate;
      change (Pos.compare_cont Eq mx my) with (Pos.compare mx my) in Hc;
      destruct (Pos.compare_spec mx my); try discriminate; auto. }
  unfold float_sub, SFsub; cbv zeta. rewrite Z.sub_diag. reflexivity.
Qed.

Lemma float_sub_nan (x y : spec_float) :
  SFcompare x y = None -> float_sub x y = S754_nan.
Proof.
  destruct x as [sx|sx| |sx mx ex], y as [sy|sy| |sy my ey]; try discriminate; try reflexivity.
  all: try solve [destruct sx, sy; discriminate].
  all: try solve [destruct sx; discriminate].
  all: try solve [destruct sy; discriminate].
Qed.

(** ** Integers as doubles

    An integer below 2^53 in magnitude becomes a double without rounding,
    and compares with any double as that double does. *)

Lemma digits2_pos_iter_xO (m k : positive) :
  Zpos (digits2_pos (Pos.iter xO m k)) = Zpos (digits2_pos m) + Zpos k.
Proof.
  induction k as [|k IH] using Pos.peano_ind.
  - simpl. lia.
  - rewrite Pos.iter_succ. cbn [digits2_pos]. rewrite Pos2Z.inj_succ, IH. lia.
Qed.

Lemma shl_align_exponent (m : positive) (e e' : Z) :
  e' <= e -> snd (shl_align m e e') = e'.
Proof.
  intros Hle. unfold shl_align.
  destruct (e' - e) as [|d|d] eqn:Hd; simpl snd; lia.
Qed.

Lemma shl_align_digits (m : positive) (e e' : Z) :
  e' <= e ->
  Zpos (digits2_pos (fst (shl_align m e e'))) = Zpos (digits2_pos m) + (e - e').
Proof.
  intros Hle. unfold shl_align.
  destruct (e' - e) as [|d|d] eqn:Hd; simpl fst.
  - lia.
  - lia.
  - rewrite digits2_pos_iter_xO. lia.
Qed.

(** A mantissa of at most 53 bits is not rounded: the integer [p] becomes
    the double with the same value. *)
Lemma binary_round_small (sx : bool) (p : positive) :
  Zpos (digits2_pos p) <= 53 ->
  exists mz ez,
    binary_round prec emax sx p 0 = S754_finite sx mz ez /\
    Zpos mz = Zpos p * 2 ^ (- ez) /\
    -52 <= ez <= 0 /\
    float_valid (S754_finite sx mz ez) = true.
Proof.
  intros Hd.
  pose proof (Pos2Z.is_pos (digits2_pos p)) as Hpos.
  assert (Hf : fexp prec emax (Zpos (digits2_pos p) + 0) = Zpos (digits2_pos p) - 53)
    by (unfold fexp, emin, prec, emax; lia).
  unfold binary_round. rewrite Hf.
  destruct (shl_align p 0 (Zpos (digits2_pos p) - 53)) as [mz ez] eqn:Hal.
  assert (Hez : ez = Zpos (digits2_pos p) - 53).
  { rewrite <- (shl_align_exponent p 0 (Zpos (digits2_pos p) - 53)) by lia.
    rewrite Hal. reflexivity. }
  assert (Hmz : Zpos mz = Zpos p * 2 ^ (0 - (Zpos (digits2_pos p) - 53))).
  { rewrite <- (shl_align_value p 0 (Zpos (digits2_pos p) - 53)) by lia.
    rewrite Hal. reflexivity. }
  assert (Hdz : Zpos (digits2_pos mz) = 53).
  { pose proof (shl_align_digits p 0 (Zpos (digits2_pos p) - 53) ltac:(lia)) as Hx.
    rewrite Hal in Hx. simpl fst in Hx. lia. }
  exists mz, ez. subst ez.
  assert (Hshift : forall l, shr_fexp prec emax (Zpos mz) (Zpos (digits2_pos p) - 53) l
                   = (shr_record_of_loc (Zpos mz) l, Zpos (digits2_pos p) - 53)).
  { intros l. unfold shr_fexp. cbn [Zdigits2]. rewrite Hdz.
    replace (fexp prec emax (53 + (Zpos (digits2_pos p) - 53)) - (Zpos (digits2_pos p) - 53))
      with 0 by (unfold fexp, emin, prec, emax; lia).
    reflexivity. }
  repeat apply conj.
  - unfold binary_round_aux. rewrite Hshift. cbn [shr_record_of_loc shr_m loc_of_shr_record round_nearest_even].
    rewrite Hshift. cbn [shr_record_of_loc shr_m].
    replace (Zpos (digits2_pos p) - 53 <=? emax - prec) with true
      by (symmetry; apply Z.leb_le; unfold emax, prec; lia).
    reflexivity.
  - rewrite Hmz, Z.sub_0_l. reflexivity.
  - lia.
  - lia.
  - unfold float_valid, valid_binary, bounded, canonical_mantissa.
    rewrite Hdz. apply andb_true_iff. split.
    + apply Z.eqb_eq. unfold fexp, emin, prec, emax. lia.
    + apply Z.leb_le. unfold emax, prec. lia.
Qed.

Lemma small_digits (p : positive) : Zpos p < 2 ^ 53 -> Zpos (digits2_pos p) <= 53.
Proof.
  intros Hp. pose proof (digits2_pos_bounds p) as [Hlo _].
  destruct (Z.le_gt_cases (Zpos (digits2_pos p)) 53) as [|Hgt]; [assumption|].
  assert (2 ^ 53 <= 2 ^ (Zpos (digits2_pos p) - 1)) by (apply Z.pow_le_mono_r; lia).
  lia.
Qed.

(** The double of an integer below 2^53 in magnitude. *)
Lemma float_of_Z_small (n : Z) :
  Z.abs n < 2 ^ 53 ->
  float_valid (float_of_Z n) = true /\
  PyLong_AsDouble n = Return (float_of_Z n) /\
  Z_compare_float n (float_of_Z n) = Some Eq.
Proof.
  intros Hn. unfold PyLong_AsDouble, float_of_Z.
  destruct n as [|p|p]; cbn [binary_normalize].
  - repeat split.
  - destruct (binary_round_small false p (small_digits p ltac:(lia)))
      as (mz & ez & -> & Hmz & Hez & Hv).
    repeat split; [exact Hv|].
    unfold Z_compare_float, cond_Zopp. f_equal.
    destruct ez as [|q|q]; try lia.
    + rewrite Z.shiftl_0_r. apply Z.compare_eq_iff. cbn in Hmz. lia.
    + rewrite Z.shiftl_mul_pow2 by lia. apply Z.compare_eq_iff.
      rewrite Hmz. reflexivity.
  - destruct (binary_round_small true p (small_digits p ltac:(lia)))
      as (mz & ez & -> & Hmz & Hez & Hv).
    repeat split; [exact Hv|].
    unfold Z_compare_float, cond_Zopp. f_equal.
    destruct ez as [|q|q]; try lia.
    + rewrite Z.shiftl_0_r. apply Z.compare_eq_iff. cbn in Hmz. lia.
    + rewrite Z.shiftl_mul_pow2 by lia. apply Z.compare_eq_iff.
      rewrite Hmz. change (- Z.neg q) with (Zpos q). lia.
Qed.
Lemma Z_mul_compare_pos (a b k : Z) : 0 < k -> (a * k ?= b * k) = (a ?= b).
Proof.
  intros Hk. destruct (Z.compare_spec a b) as [->|Hlt|Hgt].
  - apply Z.compare_refl.
  - apply Z.compare_lt_iff. apply Z.mul_lt_mono_pos_r; assumption.
  - apply Z.compare_gt_iff. apply Z.mul_lt_mono_pos_r; assumption.
Qed.

Lemma cond_Zopp_mul (s : bool) (a k : Z) : cond_Zopp s a * k = cond_Zopp s (a * k).
Proof. destruct s; unfold cond_Zopp; lia. Qed.

(** On valid doubles [SFcompare] is the order of the exact values. *)
Lemma SFcompare_aligned (sx sy : bool) (mx my : positive) (ex ey : Z) :
  float_valid (S754_finite sx mx ex) = true ->
  float_valid (S754_finite sy my ey) = true ->
  SFcompare (S754_finite sx mx ex) (S754_finite sy my ey)
    = Some (cond_Zopp sx (Zpos mx * 2 ^ (ex - Z.min ex ey))
            ?= cond_Zopp sy (Zpos my * 2 ^ (ey - Z.min ex ey))).
Proof.
  intros Vx Vy.
  destruct (SFcompare (S754_finite sx mx ex) (S754_finite sy my ey)) as [c|] eqn:Hc;
    [|destruct sx, sy; discriminate].
  f_equal. symmetry. destruct c.
  - apply Z.compare_eq_iff. cbn in Hc.
    assert (sx = sy /\ ex = ey /\ mx = my) as (-> & -> & ->); [|reflexivity].
    destruct sx, sy; try discriminate;
      destruct (Z.compare_spec ex ey); try discriminate;
      change (Pos.compare_cont Eq mx my) with (Pos.compare mx my) in Hc;
      destruct (Pos.compare_spec mx my); try discriminate; auto.
  - apply Z.compare_lt_iff. exact (SFcompare_Lt_aligned _ _ _ _ _ _ Vx Vy Hc).
  - apply Z.compare_gt_iff.
    assert (Hc' : SFcompare (S754_finite sy my ey) (S754_finite sx mx ex) = Some Lt)
      by (rewrite SFcompare_swap, Hc; reflexivity).
    pose proof (SFcompare_Lt_aligned _ _ _ _ _ _ Vy Vx Hc') as Hlt.
    rewrite (Z.min_comm ey ex) in Hlt. exact Hlt.
Qed.

(** An integer below 2^53 in magnitude compares with a double as its own
    double does. *)
Lemma Z_compare_float_small (n : Z) (y : spec_float) :
  Z.abs n < 2 ^ 53 ->
  float_valid y = true ->
  Z_compare_float n y = SFcompare (float_of_Z n) y.
Proof.
  intros Hn Vy. unfold float_of_Z.
  destruct n as [|p|p]; cbn [binary_normalize].
  - destruct y as [sy|sy| |sy my ey]; try reflexivity.
    unfold Z_compare_float, cond_Zopp. cbn [SFcompare]. f_equal.
    destruct ey as [|q|q].
    + destruct sy; reflexivity.
    + rewrite Z.shiftl_mul_pow2 by lia.
      assert (0 < Zpos my * 2 ^ Zpos q)
        by (apply Z.mul_pos_pos; [|apply Z.pow_pos_nonneg]; lia).
      destruct sy; [apply Z.compare_gt_iff|apply Z.compare_lt_iff]; lia.
    + rewrite Z.shiftl_0_l. destruct sy; reflexivity.
  - destruct (binary_round_small false p (small_digits p ltac:(lia)))
      as (mz & ez & -> & Hmz & Hez & Vx).
    destruct y as [sy|sy| |sy my ey]; try reflexivity.
    rewrite (SFcompare_aligned _ _ _ _ _ _ Vx Vy).
    unfold Z_compare_float. f_equal.
    assert (Hk : 0 < 2 ^ (- Z.min ez ey)) by (apply Z.pow_pos_nonneg; lia).
    assert (Hx : cond_Zopp false (Zpos mz * 2 ^ (ez - Z.min ez ey))
                 = Zpos p * 2 ^ (- Z.min ez ey)).
    { cbn [cond_Zopp]. rewrite Hmz, <- Z.mul_assoc, <- Z.pow_add_r by lia.
      f_equal. f_equal. lia. }
    rewrite Hx.
    destruct ey as [|q|q].
    + rewrite Z.shiftl_0_r.
      rewrite <- (Z_mul_compare_pos _ _ _ Hk), cond_Zopp_mul.
      replace (0 - Z.min ez 0) with (- Z.min ez 0) by lia. reflexivity.
    + rewrite Z.shiftl_mul_pow2 by lia.
      rewrite <- (Z_mul_compare_pos _ _ _ Hk), cond_Zopp_mul.
      rewrite <- Z.mul_assoc, <- Z.pow_add_r by lia.
      replace (Zpos q + - Z.min ez (Zpos q)) with (Zpos q - Z.min ez (Zpos q)) by lia.
      reflexivity.
    + rewrite Z.shiftl_mul_pow2 by lia.
      assert (Hk' : 0 < 2 ^ (Z.neg q - Z.min ez (Z.neg q))) by (apply Z.pow_pos_nonneg; lia).
      rewrite <- (Z_mul_compare_pos _ _ _ Hk'), cond_Zopp_mul.
      rewrite <- Z.mul_assoc, <- Z.pow_add_r by lia.
      replace (Zpos q + (Z.neg q - Z.min ez (Z.neg q))) with (- Z.min ez (Z.neg q)) by lia.
      reflexivity.
  - destruct (binary_round_small true p (small_digits p ltac:(lia)))
      as (mz & ez & -> & Hmz & Hez & Vx).
    destruct y as [sy|sy| |sy my ey]; try reflexivity.
    rewrite (SFcompare_aligned _ _ _ _ _ _ Vx Vy).
    unfold Z_compare_float. f_equal.
    assert (Hk : 0 < 2 ^ (- Z.min ez ey)) by (apply Z.pow_pos_nonneg; lia).
    assert (Hx : cond_Zopp true (Zpos mz * 2 ^ (ez - Z.min ez ey))
                 = Z.neg p * 2 ^ (- Z.min ez ey)).
    { cbn [cond_Zopp]. rewrite Hmz, <- Z.mul_assoc, <- Z.pow_add_r by lia.
      replace (- ez + (ez - Z.min ez ey)) with (- Z.min ez ey) by lia.
      change (Z.neg p) with (- Zpos p). lia. }
    rewrite Hx.
    destruct ey as [|q|q].
    + rewrite Z.shiftl_0_r.
      rewrite <- (Z_mul_compare_pos _ _ _ Hk), cond_Zopp_mul.
      replace (0 - Z.min ez 0) with (- Z.min ez 0) by lia. reflexivity.
    + rewrite Z.shiftl_mul_pow2 by lia.
      rewrite <- (Z_mul_compare_pos _ _ _ Hk), cond_Zopp_mul.
      rewrite <- Z.mul_assoc, <- Z.pow_add_r by lia.
      replace (Zpos q + - Z.min ez (Zpos q)) with (Zpos q - Z.min ez (Zpos q)) by lia.
      reflexivity.
    + rewrite Z.shiftl_mul_pow2 by lia.
      assert (Hk' : 0 < 2 ^ (Z.neg q - Z.min ez (Z.neg q))) by (apply Z.pow_pos_nonneg; lia).
      rewrite <- (Z_mul_compare_pos _ _ _ Hk'), cond_Zopp_mul.
      rewrite <- Z.mul_assoc, <- Z.pow_add_r by lia.
      replace (Zpos q + (Z.neg q - Z.min ez (Z.neg q))) with (- Z.min ez (Z.neg q)) by lia.
      reflexivity.
Qed.

(** The double of an integer has the sign of the integer. *)
Lemma PyLong_AsDouble_sign (n : Z) (f : spec_float) :
  PyLong_AsDouble n = Return f -> float_sign f = Some (n ?= 0).
Proof.
  unfold PyLong_AsDouble, float_of_Z.
  destruct n as [|p|p]; cbn [binary_normalize].
  - intros Hf. inversion Hf. reflexivity.
  - destruct (binary_round_signed false p 0) as [(m & e' & ->)| ->];
      [unfold emin, prec, emax; lia| |discriminate].
    intros Hf. inversion Hf. reflexivity.
  - destruct (binary_round_signed true p 0) as [(m & e' & ->)| ->];
      [unfold emin, prec, emax; lia| |discriminate].
    intros Hf. inversion Hf. reflexivity.
Qed.

(** ** Facts about [-], [int()] and decimal literals *)

Lemma py_sub_None_l (v : pyval) : py_sub VNone v = Raise TypeError.
Proof. destruct v; reflexivity. Qed.

Lemma py_sub_None_r (v : pyval) : py_sub v VNone = Raise TypeError.
Proof. destruct v; reflexivity. Qed.

Lemma py_sub_defined (e s : pyval) :
  sub_defined e s = true <-> exists d, py_sub e s = Return d.
Proof.
  unfold sub_defined, fits_double, py_sub, PyLong_AsDouble, outcome_bind.
  destruct e, s; cbn;
    repeat match goal with
           | |- context [float_of_Z ?n] => destruct (float_of_Z n)
           end; cbn;
    split; intros Hd; try discriminate; eauto;
    destruct Hd as [d Hd]; discriminate.
Qed.

Lemma py_sub_numeric (e s d : pyval) :
  py_sub e s = Return d -> is_numeric d = true.
Proof.
  unfold py_sub, PyLong_AsDouble, outcome_bind.
  destruct e, s; cbn;
    repeat match goal with
           | |- context [float_of_Z ?n] => destruct (float_of_Z n)
           end; cbn;
    intros Hd; inversion Hd; reflexivity.
Qed.

Lemma py_sub_raises (e s : pyval) (ex : exn) :
  py_sub e s = Raise ex -> ex = TypeError \/ ex = OverflowError.
Proof.
  unfold py_sub, PyLong_AsDouble, outcome_bind.
  destruct e, s; cbn;
    repeat match goal with
           | |- context [float_of_Z ?n] => destruct (float_of_Z n)
           end; cbn;
    intros Hd; inversion Hd; auto.
Qed.

(** [float.__int__] rounds toward zero: the quotient of the exact value,
    written as a fraction of integers. *)
Lemma float_trunc_quot (sg : bool) (m : positive) (e : Z) :
  float_trunc (S754_finite sg m e) =
    Return (Z.quot (cond_Zopp sg (Zpos m * 2 ^ Z.max e 0)) (2 ^ Z.max (- e) 0)).
Proof.
  unfold float_trunc. f_equal.
  assert (Hpos : 0 < 2 ^ Z.max (- e) 0) by (apply Z.pow_pos_nonneg; lia).
  destruct (Z.le_gt_cases 0 e) as [He|He].
  - rewrite Z.shiftl_mul_pow2 by lia.
    rewrite (Z.max_l e 0), (Z.max_r (- e) 0) by lia.
    rewrite Z.pow_0_r, Z.quot_1_r. reflexivity.
  - rewrite Z.shiftl_div_pow2 by lia.
    rewrite (Z.max_r e 0), (Z.max_l (- e) 0) by lia.
    rewrite Z.pow_0_r, Z.mul_1_r.
    assert (Hp : 0 < 2 ^ (- e)) by (apply Z.pow_pos_nonneg; lia).
    rewrite <- Z.quot_div_nonneg by lia.
    destruct sg; unfold cond_Zopp; [|reflexivity].
    rewrite Z.quot_opp_l by lia. reflexivity.
Qed.

Lemma to_float_numeric (d : pyval) :
  is_numeric d = true ->
  (exists f, to_float d = Return f) \/ to_float d = Raise OverflowError.
Proof.
  destruct d as [|b|n|x|text]; try discriminate; intros _; cbn; eauto;
    unfold PyLong_AsDouble;
    match goal with
    | |- context [float_of_Z ?n] => destruct (float_of_Z n)
    end; eauto.
Qed.

(** Multiplying a number by a unit gives a quantity or, for an integer
    beyond the range of a double, [OverflowError]. *)
Lemma mul_unit_numeric (d : pyval) (u : unit_t) :
  is_numeric d = true ->
  (exists q, mul_unit d u = Return q) \/ mul_unit d u = Raise OverflowError.
Proof.
  intros Hd. unfold mul_unit.
  destruct (to_float_numeric d Hd) as [[f ->]| ->]; cbn; eauto.
Qed.

Lemma duration_defined_bind (e s : pyval) :
  duration_defined e s = true <->
  exists f, outcome_bind (py_sub e s) to_float = Return f.
Proof.
  unfold duration_defined, fits_double, py_sub, to_float, PyLong_AsDouble, outcome_bind.
  destruct e as [|be|ne|fe|se], s as [|bs|ns|fs|ss]; cbn;
    repeat match goal with
           | |- context [float_of_Z ?n] => destruct (float_of_Z n)
           end; cbn;
    split; intros Hd; try discriminate; eauto;
    destruct Hd as [f Hd]; discriminate.
Qed.

Lemma duration_defined_iff (e s : pyval) :
  duration_defined e s = true <->
  exists d f, py_sub e s = Return d /\ to_float d = Return f.
Proof.
  rewrite duration_defined_bind. split.
  - intros [f Hf]. destruct (py_sub e s) as [d|ex]; [|discriminate]. eauto.
  - intros (d & f & -> & Hf). eauto.
Qed.

Lemma small_int_fits (v : pyval) : small_int v = true -> fits_double v = true.
Proof.
  unfold small_int, fits_double. destruct (as_int v) as [n|]; [|discriminate].
  intros Hn. apply Z.ltb_lt in Hn.
  destruct (float_of_Z_small n Hn) as (_ & Hconv & _).
  unfold PyLong_AsDouble in Hconv.
  destruct (float_of_Z n); try reflexivity. discriminate.
Qed.

Lemma small_int_numeric (v : pyval) : small_int v = true -> is_numeric v = true.
Proof. destruct v; try discriminate; reflexivity. Qed.

Lemma exact_operands_defined (e s : pyval) :
  exact_operands e s = true -> duration_defined e s = true.
Proof.
  unfold exact_operands, duration_defined.
  destruct e, s; try discriminate; try (intros _; reflexivity); intros Hs;
    try exact Hs;
    rewrite (small_int_fits _ Hs), (small_int_numeric _ Hs); reflexivity.
Qed.

Lemma is_negative_float (f : spec_float) :
  is_negative (VFloat f) = match float_sign f with Some Lt => true | _ => false end.
Proof.
  destruct f as [sg|sg| |sg m e]; try reflexivity; try (destruct sg; reflexivity).
  unfold is_negative, py_lt, as_int, Z_compare_float, cond_Zopp, float_sign.
  destruct e as [|p|p].
  - destruct sg; reflexivity.
  - rewrite Z.shiftl_mul_pow2 by lia.
    assert (0 < Zpos m * 2 ^ Zpos p) by (apply Z.mul_pos_pos; [|apply Z.pow_pos_nonneg]; lia).
    destruct sg.
    + destruct (Z.compare_spec 0 (- (Zpos m * 2 ^ Zpos p))); try reflexivity; lia.
    + destruct (Z.compare_spec 0 (Zpos m * 2 ^ Zpos p)); try reflexivity; lia.
  - rewrite Z.shiftl_0_l. destruct sg; reflexivity.
Qed.

Lemma is_positive_float (f : spec_float) :
  is_positive (VFloat f) = match float_sign f with Some Gt => true | _ => false end.
Proof.
  destruct f as [sg|sg| |sg m e]; try reflexivity; try (destruct sg; reflexivity).
  unfold is_positive, py_lt, as_int, Z_compare_float, cond_Zopp, float_sign.
  destruct e as [|p|p].
  - destruct sg; reflexivity.
  - rewrite Z.shiftl_mul_pow2 by lia.
    assert (0 < Zpos m * 2 ^ Zpos p) by (apply Z.mul_pos_pos; [|apply Z.pow_pos_nonneg]; lia).
    destruct sg.
    + destruct (Z.compare_spec 0 (- (Zpos m * 2 ^ Zpos p))); try reflexivity; lia.
    + destruct (Z.compare_spec 0 (Zpos m * 2 ^ Zpos p)); try reflexivity; lia.
  - rewrite Z.shiftl_0_l. destruct sg; reflexivity.
Qed.

(** For doubles, and for integers, the sign of [e - s] is the order of
    [e] and [s]. *)
(** For two doubles the sign of the difference is the order of the
    operands. *)
Lemma float_sub_order (x y : spec_float) :
  float_valid x = true ->
  float_valid y = true ->
  is_negative (VFloat (float_sub x y)) = SFltb x y /\
  is_positive (VFloat (float_sub x y)) = SFltb y x.
Proof.
  intros Vx Vy. rewrite is_negative_float, is_positive_float.
  unfold SFltb. rewrite (SFcompare_swap x y).
  destruct (SFcompare x y) as [[]|] eqn:Hc.
  - destruct (float_sub_sign_Eq x y Vx Vy Hc) as [-> | ->]; split; reflexivity.
  - rewrite (float_sub_sign x y Lt Vx Vy Hc) by discriminate. split; reflexivity.
  - rewrite (float_sub_sign x y Gt Vx Vy Hc) by discriminate. split; reflexivity.
  - rewrite (float_sub_nan x y Hc). split; reflexivity.
Qed.

Lemma SFltb_swap_Gt (x y : spec_float) :
  match SFcompare x y with Some Gt => true | _ => false end = SFltb y x.
Proof.
  unfold SFltb. rewrite (SFcompare_swap x y).
  destruct (SFcompare x y) as [[]|]; reflexivity.
Qed.

(** The sign of the measured difference is the order of the two values,
    for the operands that are converted without rounding. *)
Lemma duration_order (e s d : pyval) (f : spec_float) :
  wf_value s = true ->
  wf_value e = true ->
  exact_operands e s = true ->
  py_sub e s = Return d ->
  to_float d = Return f ->
  is_negative (VFloat f) = py_lt e s /\ is_positive (VFloat f) = py_lt s e.
Proof.
  intros Ws We Hex Hd Hf.
  assert (Hints : forall m n, fits_double (VInt (m - n)) = true ->
            to_float (VInt (m - n)) = Return f ->
            is_negative (VFloat f) = (m <? n) /\ is_positive (VFloat f) = (n <? m)).
  { intros m n _ Hconv. cbn in Hconv.
    rewrite is_negative_float, is_positive_float, (PyLong_AsDouble_sign _ _ Hconv).
    destruct (Z.compare_spec (m - n) 0), (Z.ltb_spec m n), (Z.ltb_spec n m);
      try lia; split; reflexivity. }
  assert (Hleft : forall m y, Z.abs m < 2 ^ 53 -> float_valid y = true ->
            is_negative (VFloat (float_sub (float_of_Z m) y))
              = match Z_compare_float m y with Some Lt => true | _ => false end /\
            is_positive (VFloat (float_sub (float_of_Z m) y))
              = match Z_compare_float m y with Some Gt => true | _ => false end).
  { intros m y Hm Vy. destruct (float_of_Z_small m Hm) as (Vx & _ & _).
    rewrite (Z_compare_float_small m y Hm Vy), SFltb_swap_Gt.
    exact (float_sub_order _ _ Vx Vy). }
  assert (Hright : forall x n, Z.abs n < 2 ^ 53 -> float_valid x = true ->
            is_negative (VFloat (float_sub x (float_of_Z n)))
              = match Z_compare_float n x with Some Gt => true | _ => false end /\
            is_positive (VFloat (float_sub x (float_of_Z n)))
              = match Z_compare_float n x with Some Lt => true | _ => false end).
  { intros x n Hn Vx. destruct (float_of_Z_small n Hn) as (Vy & _ & _).
    rewrite (Z_compare_float_small n x Hn Vx), SFltb_swap_Gt.
    destruct (float_sub_order _ _ Vx Vy) as [Hneg Hpos]. split; assumption. }
  destruct e as [|be|ne|fe|se], s as [|bs|ns|fs|ss]; try discriminate;
    cbn [exact_operands small_int as_int] in Hex;
    try (apply Z.ltb_lt in Hex);
    cbn [wf_value] in Ws, We.
  - cbn in Hd. inversion Hd; subst d. exact (Hints _ _ Hex Hf).
  - cbn in Hd. inversion Hd; subst d. exact (Hints _ _ Hex Hf).
  - cbn [py_sub as_int outcome_bind] in Hd.
    destruct (float_of_Z_small _ Hex) as (_ & Hconv & _). rewrite Hconv in Hd.
    cbn in Hd. inversion Hd; subst d. cbn in Hf. inversion Hf; subst f.
    exact (Hleft _ _ Hex Ws).
  - cbn in Hd. inversion Hd; subst d. exact (Hints _ _ Hex Hf).
  - cbn in Hd. inversion Hd; subst d. exact (Hints _ _ Hex Hf).
  - cbn [py_sub as_int outcome_bind] in Hd.
    destruct (float_of_Z_small _ Hex) as (_ & Hconv & _). rewrite Hconv in Hd.
    cbn in Hd. inversion Hd; subst d. cbn in Hf. inversion Hf; subst f.
    exact (Hleft _ _ Hex Ws).
  - cbn [py_sub as_int outcome_bind] in Hd.
    destruct (float_of_Z_small _ Hex) as (_ & Hconv & _). rewrite Hconv in Hd.
    cbn in Hd. inversion Hd; subst d. cbn in Hf. inversion Hf; subst f.
    exact (Hright _ _ Hex We).
  - cbn [py_sub as_int outcome_bind] in Hd.
    destruct (float_of_Z_small _ Hex) as (_ & Hconv & _). rewrite Hconv in Hd.
    cbn in Hd. inversion Hd; subst d. cbn in Hf. inversion Hf; subst f.
    exact (Hright _ _ Hex We).
  - cbn in Hd. inversion Hd; subst d. cbn in Hf. inversion Hf; subst f.
    exact (float_sub_order _ _ We Ws).
Qed.

Lemma py_sub_TypeError (e s : pyval) :
  py_sub e s = Raise TypeError <-> is_numeric e && is_numeric s = false.
Proof.
  unfold py_sub, PyLong_AsDouble, outcome_bind.
  destruct e, s; cbn;
    repeat match goal with
           | |- context [float_of_Z ?n] => destruct (float_of_Z n)
           end; cbn;
    split; intros Hd; try discriminate; reflexivity.
Qed.

Lemma digit_char_facts (d : Z) :
  is_digit d ->
  py_isspace (digit_char d) = false /\
  digit_of (digit_char d) = Some d /\
  Ascii.eqb (digit_char d) "_" = false /\
  Ascii.eqb (digit_char d) "-" = false /\
  Ascii.eqb (digit_char d) "+" = false.
Proof.
  intros Hd.
  assert (d = 0 \/ d = 1 \/ d = 2 \/ d = 3 \/ d = 4 \/
          d = 5 \/ d = 6 \/ d = 7 \/ d = 8 \/ d = 9) as Hc by (unfold is_digit in Hd; lia).
  repeat (destruct Hc as [->|Hc]); try subst d; repeat split; reflexivity.
Qed.

Lemma lstrip_no_space (cs : list ascii) :
  Forall (fun c => py_isspace c = false) cs -> lstrip cs = cs.
Proof.
  intros Hcs. destruct Hcs as [|c cs Hc _]; [reflexivity|].
  simpl. rewrite Hc. reflexivity.
Qed.

Lemma strip_no_space (cs : list ascii) :
  Forall (fun c => py_isspace c = false) cs -> strip cs = cs.
Proof.
  intros Hcs. unfold strip.
  rewrite (lstrip_no_space cs Hcs).
  rewrite lstrip_no_space by (apply Forall_rev; exact Hcs).
  apply rev_involutive.
Qed.

Lemma parse_digits_decimal (ds : list Z) :
  Forall is_digit ds ->
  forall (acc : Z) (after_digit : bool),
    ds <> [] \/ after_digit = true ->
    parse_digits acc after_digit (map digit_char ds) =
      Some (fold_left (fun a d => 10 * a + d) ds acc).
Proof.
  induction 1 as [|d ds Hd _ IH]; intros acc b Hne.
  - destruct Hne as [Hne| ->]; [congruence|reflexivity].
  - destruct (digit_char_facts d Hd) as (_ & Hdig & Hus & _).
    cbn [map parse_digits fold_left]. rewrite Hus, Hdig.
    apply IH. right. reflexivity.
Qed.

Lemma count_digits_decimal (ds : list Z) :
  Forall is_digit ds -> count_digits (map digit_char ds) = Z.of_nat (length ds).
Proof.
  unfold count_digits. intros Hds. f_equal.
  induction Hds as [|d ds Hd _ IH]; [reflexivity|].
  destruct (digit_char_facts d Hd) as (_ & Hdig & _).
  cbn [map List.filter]. rewrite Hdig. cbn [length]. rewrite IH. reflexivity.
Qed.

Lemma digits_no_space (ds : list Z) :
  Forall is_digit ds -> Forall (fun c => py_isspace c = false) (map digit_char ds).
Proof.
  induction 1 as [|d ds Hd _ IH]; constructor; [|exact IH].
  apply (digit_char_facts d Hd).
Qed.

(** A string of decimal digits, within the digit limit, converts to the
    number it denotes. *)
Lemma int_of_str_decimal `{Platform} (ds : list Z) :
  ds <> [] -> Forall is_digit ds ->
  exceeds_digit_limit (Z.of_nat (length ds)) = false ->
  int_of_str (decimal_string ds) = Some (decimal_value ds).
Proof.
  intros Hne Hds Hlim. unfold int_of_str, decimal_string, decimal_value.
  rewrite list_ascii_of_string_of_list_ascii.
  rewrite strip_no_space.
  - pose proof (count_digits_decimal ds Hds) as Hcount.
    pose proof (parse_digits_decimal ds Hds 0 false (or_introl Hne)) as Hparse.
    destruct Hds as [|d ds Hd Hds]; [congruence|].
    destruct (digit_char_facts d Hd) as (_ & _ & _ & Hm & Hp).
    cbn [map] in *. rewrite Hm, Hp. cbn [orb].
    rewrite Hparse, Hcount, Hlim. reflexivity.
  - exact (digits_no_space ds Hds).
Qed.

(** ** Running the tasks *)

(** Unfolds the monad so that a task body reduces to its lookups and
    conversions. *)
Ltac run_task :=
  cbv [TimingMetricTask.makeMeasurement MemoryMetricTask.makeMeasurement
       TimingMetricTask.getOutputMetricName MemoryMetricTask.getOutputMetricName
       getitem mbind M_bind mret M_ret try_except_else lift raise log_info].

Section Evaluation.
Context `{NameParser} `{Platform}.
Implicit Types (config : TimeMethodMetricConfig) (lg : list log_record).
Implicit Types (timings memory : gmap string pyval).

Lemma annotated_estimator (name : name_t) (q : Quantity) :
  metric_name (annotated name q) = name /\
  quantity (annotated name q) = q /\
  notes (annotated name q) !! "estimator" = Some "pipe.base.timeMethod".
Proof.
  split; [reflexivity|]. split; [reflexivity|].
  unfold annotated, set_note. cbn [notes]. apply lookup_insert_eq.
Qed.

Lemma timing_both_None config timings lg :
  timings !! "StartTime" = Some VNone ->
  timings !! "EndTime" = Some VNone ->
  TimingMetricTask.makeMeasurement config timings lg =
    (Return None,
     lg ++ [{| level := INFO;
               message := "Nothing to do: no timing information for "
                          +:+ target config +:+ " found." |}]).
Proof.
  intros Hs He. run_task. rewrite Hs, He. reflexivity.
Qed.

(** With at least one value present the [try] statement runs: the
    subtraction, then the [except TypeError] clause or the [else]
    suite. *)
Lemma timing_some_present config timings s e lg :
  timings !! "StartTime" = Some s ->
  timings !! "EndTime" = Some e ->
  is_not_None s || is_not_None e = true ->
  TimingMetricTask.makeMeasurement config timings lg =
    match py_sub e s with
    | Return totalTime =>
        match Name (metric config) with
        | Return name =>
            match mul_unit totalTime u_second with
            | Return q => (Return (Some (annotated name q)), lg)
            | Raise ex => (Raise ex, lg)
            end
        | Raise ex => (Raise ex, lg)
        end
    | Raise TypeError => (Raise (MetricComputationError "Invalid metadata" None), lg)
    | Raise ex => (Raise ex, lg)
    end.
Proof.
  intros Hs He Hp. run_task. rewrite Hs.
  destruct (is_not_None s) eqn:Es; simpl in Hp.
  - rewrite He. destruct (py_sub e s) as [d|[]]; reflexivity.
  - rewrite He, Hp. destruct (py_sub e s) as [d|[]]; reflexivity.
Qed.

Lemma timing_numbers config timings s e d f name lg :
  timings !! "StartTime" = Some s ->
  timings !! "EndTime" = Some e ->
  py_sub e s = Return d ->
  to_float d = Return f ->
  Name (metric config) = Return name ->
  TimingMetricTask.makeMeasurement config timings lg =
    (Return (Some (annotated name {| q_value := f; q_unit := u_second |})), lg).
Proof.
  intros Hs He Hd Hf Hn.
  rewrite (timing_some_present config timings s e lg Hs He).
  - rewrite Hd, Hn. unfold mul_unit. rewrite Hf. reflexivity.
  - destruct s; try reflexivity. destruct e; try reflexivity.
    rewrite py_sub_None_l in Hd. discriminate.
Qed.

(** [_addUnits] multiplies the raw value, or the raw value times the page
    size, by the unit of the platform, and leaves the log alone. *)
Lemma addUnits_run (n : Z) lg :
  MemoryMetricTask._addUnits n lg = (mul_unit (VInt (page_scaled n)) memory_unit, lg).
Proof.
  unfold MemoryMetricTask._addUnits, page_scaled, memory_unit, lift.
  destruct (startswith sys_platform "darwin");
    [|destruct (startswith sys_platform "sunos" || startswith sys_platform "solaris")];
    reflexivity.
Qed.

Lemma addUnits_outcome (n : Z) lg :
  (exists q, MemoryMetricTask._addUnits n lg = (Return q, lg)) \/
  MemoryMetricTask._addUnits n lg = (Raise OverflowError, lg).
Proof.
  rewrite addUnits_run.
  destruct (mul_unit_numeric (VInt (page_scaled n)) memory_unit eq_refl) as [[q ->]| ->]; eauto.
Qed.

Lemma addUnits_fits (n : Z) lg :
  fits_double (VInt (page_scaled n)) = true ->
  MemoryMetricTask._addUnits n lg
    = (Return {| q_value := float_of_Z (page_scaled n); q_unit := memory_unit |}, lg).
Proof.
  intros Hfit. rewrite addUnits_run.
  unfold mul_unit, to_float, as_int, PyLong_AsDouble, fits_double, as_int in *.
  destruct (float_of_Z (page_scaled n)); try reflexivity. discriminate.
Qed.

Lemma addUnits_overflow (n : Z) lg :
  fits_double (VInt (page_scaled n)) = false ->
  MemoryMetricTask._addUnits n lg = (Raise OverflowError, lg).
Proof.
  intros Hfit. rewrite addUnits_run.
  unfold mul_unit, to_float, as_int, PyLong_AsDouble, fits_double, as_int in *.
  destruct (float_of_Z (page_scaled n)); try discriminate. reflexivity.
Qed.

Lemma memory_None config memory lg :
  memory !! "EndMemory" = Some VNone ->
  MemoryMetricTask.makeMeasurement config memory lg =
    (Return None,
     lg ++ [{| level := INFO;
               message := "Nothing to do: no memory information for "
                          +:+ target config +:+ " found." |}]).
Proof.
  intros Hv. run_task. rewrite Hv. reflexivity.
Qed.

(** With a value present the [try] statement runs: [int()], then the
    [except (ValueError, TypeError)] clause or the [else] suite. *)
Lemma memory_present config memory v lg :
  memory !! "EndMemory" = Some v ->
  is_not_None v = true ->
  MemoryMetricTask.makeMeasurement config memory lg =
    match py_int v with
    | Return maxMemory =>
        match Name (metric config) with
        | Return name =>
            match MemoryMetricTask._addUnits maxMemory lg with
            | (Return q, lg') => (Return (Some (annotated name q)), lg')
            | (Raise ex, lg') => (Raise ex, lg')
            end
        | Raise ex => (Raise ex, lg)
        end
    | Raise TypeError =>
        (Raise (MetricComputationError "Invalid metadata" (Some TypeError)), lg)
    | Raise ValueError =>
        (Raise (MetricComputationError "Invalid metadata" (Some ValueError)), lg)
    | Raise ex => (Raise ex, lg)
    end.
Proof.
  intros Hv Hp. run_task. rewrite Hv, Hp.
  destruct (py_int v) as [n|[]]; reflexivity.
Qed.

Lemma memory_converted config memory v n name lg :
  memory !! "EndMemory" = Some v ->
  py_int v = Return n ->
  fits_double (VInt (page_scaled n)) = true ->
  Name (metric config) = Return name ->
  MemoryMetricTask.makeMeasurement config memory lg =
    (Return (Some (annotated name {| q_value := float_of_Z (page_scaled n);
                                     q_unit := memory_unit |})), lg).
Proof.
  intros Hv Hn Hfit Hname.
  rewrite (memory_present config memory v lg Hv).
  - rewrite Hn, Hname, (addUnits_fits n lg Hfit). reflexivity.
  - destruct v; try reflexivity. discriminate.
Qed.

(** A string that is not an integer literal, such as the text of a
    double, is turned into [MetricComputationError]. *)
Lemma memory_bad_string_raises config memory (text : string) lg :
  memory !! "EndMemory" = Some (VStr text) ->
  int_of_str text = None ->
  MemoryMetricTask.makeMeasurement config memory lg
    = (Raise (MetricComputationError "Invalid metadata" (Some ValueError)), lg).
Proof.
  intros Hv Hbad.
  rewrite (memory_present config memory (VStr text) lg Hv eq_refl).
  cbn [py_int]. rewrite Hbad. reflexivity.
Qed.

(** The exceptions [int()] can raise. *)
Lemma py_int_raises (v : pyval) (ex : exn) :
  py_int v = Raise ex -> ex = TypeError \/ ex = ValueError \/ ex = OverflowError.
Proof.
  destruct v as [| | |[]|text]; cbn; try discriminate; intros Hex.
  - inversion Hex; auto.
  - inversion Hex; auto.
  - inversion Hex; auto.
  - destruct (int_of_str text); inversion Hex; auto.
Qed.
End Evaluation.

Lemma timings_of_lookup (s e : pyval) :
  timings_of s e !! "StartTime" = Some s /\ timings_of s e !! "EndTime" = Some e.
Proof.
  unfold timings_of. split.
  - apply lookup_insert_eq.
  - rewrite lookup_insert_ne by discriminate. apply lookup_singleton_eq.
Qed.

Lemma memory_of_lookup (v : pyval) : memory_of v !! "EndMemory" = Some v.
Proof. apply lookup_singleton_eq. Qed.

(** * The claims *)

Section Claims.
Context `{NameParser} `{Platform}.
Implicit Types (config : TimeMethodMetricConfig) (lg : list log_record).
Implicit Types (timings memory : gmap string pyval).

(** C1 (amended).  The metadata keys of the timing task are the target
    followed by "StartCpuTime" and "EndCpuTime".  When both timing
    values are numbers whose difference becomes a quantity (no [int]
    involved is beyond the range of a double) and the configured metric
    parses as a name, [makeMeasurement] returns a measurement whose
    quantity is EndTime - StartTime in seconds, as a float64, and whose
    note "estimator" is "pipe.base.timeMethod"; the log is left as it
    was.  The quantity is the difference itself when that is a float, and
    equal to it when it is an integer below 2^53 in magnitude. *)
Theorem timing_measurement_is_difference config timings s e name lg :
  timings !! "StartTime" = Some s ->
  timings !! "EndTime" = Some e ->
  duration_defined e s = true ->
  Name (metric config) = Return name ->
  TimingMetricTask.getInputMetadataKeys config !! "StartTime"
    = Some (target config +:+ "StartCpuTime") /\
  TimingMetricTask.getInputMetadataKeys config !! "EndTime"
    = Some (target config +:+ "EndCpuTime") /\
  exists d f meas,
    py_sub e s = Return d /\
    to_float d = Return f /\
    TimingMetricTask.makeMeasurement config timings lg = (Return (Some meas), lg) /\
    metric_name meas = name /\
    quantity meas = {| q_value := f; q_unit := u_second |} /\
    notes meas !! "estimator" = Some "pipe.base.timeMethod" /\
    (forall x, d = VFloat x -> f = x) /\
    (forall n, d = VInt n -> Z.abs n < 2 ^ 53 -> Z_compare_float n f = Some Eq).
Proof.
  intros Hs He Hdef Hname.
  split; [apply lookup_insert_eq|].
  split.
  { unfold TimingMetricTask.getInputMetadataKeys.
    rewrite lookup_insert_ne by discriminate. apply lookup_singleton_eq. }
  apply duration_defined_iff in Hdef. destruct Hdef as (d & f & Hd & Hf).
  exists d, f, (annotated name {| q_value := f; q_unit := u_second |}).
  split; [exact Hd|]. split; [exact Hf|].
  split; [exact (timing_numbers config timings s e d f name lg Hs He Hd Hf Hname)|].
  destruct (annotated_estimator name {| q_value := f; q_unit := u_second |})
    as (Hm & Hq & Hnote).
  repeat apply conj; try assumption.
  - intros x ->. cbn in Hf. congruence.
  - intros n -> Hn. cbn in Hf.
    destruct (float_of_Z_small n Hn) as (_ & Hconv & Heq).
    rewrite Hconv in Hf. inversion Hf; subst f. exact Heq.
Qed.

(** C2 (amended).  With a metric that parses as a name, the timing task
    produces a measurement exactly when both values are numbers whose
    difference becomes a quantity, and the memory task exactly when
    [int()] converts the value to an integer within the range of a
    double.  Partial presence of the timing pair is not treated as absent
    data: it raises [MetricComputationError]. *)
Theorem measurement_iff_values_usable config timings memory s e v name lg :
  timings !! "StartTime" = Some s ->
  timings !! "EndTime" = Some e ->
  memory !! "EndMemory" = Some v ->
  wf_value v = true ->
  Name (metric config) = Return name ->
  ((exists meas lg', TimingMetricTask.makeMeasurement config timings lg
                     = (Return (Some meas), lg'))
   <-> duration_defined e s = true) /\
  ((exists meas lg', MemoryMetricTask.makeMeasurement config memory lg
                     = (Return (Some meas), lg'))
   <-> memory_usable v = true) /\
  (is_not_None s <> is_not_None e ->
   TimingMetricTask.makeMeasurement config timings lg
     = (Raise (MetricComputationError "Invalid metadata" None), lg)).
Proof.
  intros Hs He Hv _ Hname. repeat apply conj.
  - intros (meas & lg' & Hrun). apply duration_defined_iff.
    destruct (is_not_None s || is_not_None e) eqn:Hp.
    + rewrite (timing_some_present config timings s e lg Hs He Hp), Hname in Hrun.
      destruct (py_sub e s) as [d|ex]; [|destruct ex; discriminate].
      unfold mul_unit in Hrun.
      destruct (to_float d) as [f|ex] eqn:Hf; [eauto|discriminate].
    + apply orb_false_iff in Hp. destruct Hp as [Ps Pe].
      destruct s; try discriminate. destruct e; try discriminate.
      rewrite (timing_both_None config timings lg Hs He) in Hrun. discriminate.
  - intros Hdef. apply duration_defined_iff in Hdef. destruct Hdef as (d & f & Hd & Hf).
    eexists _, lg. exact (timing_numbers config timings s e d f name lg Hs He Hd Hf Hname).
  - intros (meas & lg' & Hrun). unfold memory_usable.
    destruct (is_not_None v) eqn:Hp.
    + rewrite (memory_present config memory v lg Hv Hp), Hname in Hrun.
      destruct (py_int v) as [n|ex]; [|destruct ex; discriminate].
      destruct (fits_double (VInt (page_scaled n))) eqn:Hfit; [reflexivity|].
      rewrite (addUnits_overflow n lg Hfit) in Hrun. discriminate.
    + destruct v; try discriminate.
      rewrite (memory_None config memory lg Hv) in Hrun. discriminate.
  - unfold memory_usable. intros Hacc.
    destruct (py_int v) as [n|ex] eqn:Hn; [|discriminate].
    eexists _, lg. exact (memory_converted config memory v n name lg Hv Hn Hacc Hname).
  - intros Hpart.
    rewrite (timing_some_present config timings s e lg Hs He).
    + destruct s, e; cbn in Hpart; try congruence;
        rewrite ?py_sub_None_l, ?py_sub_None_r; reflexivity.
    + destruct s, e; try reflexivity. cbn in Hpart. congruence.
Qed.

(** C3.  When exactly one of the two timing values is [None],
    [makeMeasurement] raises [MetricComputationError]: neither a
    [TypeError] nor a [None] result. *)
Theorem timing_partial_presence_raises config timings s e lg :
  timings !! "StartTime" = Some s ->
  timings !! "EndTime" = Some e ->
  (s = VNone /\ e <> VNone) \/ (s <> VNone /\ e = VNone) ->
  TimingMetricTask.makeMeasurement config timings lg
    = (Raise (MetricComputationError "Invalid metadata" None), lg).
Proof.
  intros Hs He Hone.
  rewrite (timing_some_present config timings s e lg Hs He).
  - destruct Hone as [[-> _]|[_ ->]].
    + rewrite py_sub_None_r. reflexivity.
    + rewrite py_sub_None_l. reflexivity.
  - destruct Hone as [[-> Hne]|[Hns ->]].
    + destruct e; try reflexivity. congruence.
    + destruct s; try reflexivity. congruence.
Qed.


(** C5.  When both timing values are [None], [makeMeasurement] returns
    [None] without raising, and its only effect is one record at level
    INFO appended to the log. *)
Theorem timing_both_absent_no_measurement config timings lg :
  timings !! "StartTime" = Some VNone ->
  timings !! "EndTime" = Some VNone ->
  TimingMetricTask.makeMeasurement config timings lg
    = (Return None,
       lg ++ [{| level := INFO;
                 message := "Nothing to do: no timing information for "
                            +:+ target config +:+ " found." |}]).
Proof.
  intros Hs He. exact (timing_both_None config timings lg Hs He).
Qed.

(** C6 (the code at the failing input).  An infinite float is a value
    [int()] rejects, yet [MemoryMetricTask.makeMeasurement] does not
    raise [MetricComputationError] for it: [OverflowError] is not among
    the caught exceptions and escapes. *)
Theorem memory_infinity_escapes config lg (sg : bool) :
  int_accepts (VFloat (S754_infinity sg)) = false /\
  MemoryMetricTask.makeMeasurement config (memory_of (VFloat (S754_infinity sg))) lg
    = (Raise OverflowError, lg).
Proof.
  split; [reflexivity|].
  rewrite (memory_present config _ _ lg (memory_of_lookup _)); reflexivity.
Qed.

(** C7.  When the configured metric string does not parse,
    [getOutputMetricName] of either task raises the parser's exception
    as it is, and so does every [makeMeasurement] that gets as far as
    building its measurement: the call sits in the [else] suite, outside
    the [except] clauses, so the exception is not turned into a
    [MetricComputationError]. *)
Theorem metric_name_error_propagates config (ex : exn) :
  Name (metric config) = Raise ex ->
  (forall lg, TimingMetricTask.getOutputMetricName config lg = (Raise ex, lg)) /\
  (forall lg, MemoryMetricTask.getOutputMetricName config lg = (Raise ex, lg)) /\
  (forall timings s e d lg,
      timings !! "StartTime" = Some s ->
      timings !! "EndTime" = Some e ->
      py_sub e s = Return d ->
      TimingMetricTask.makeMeasurement config timings lg = (Raise ex, lg)) /\
  (forall memory v n lg,
      memory !! "EndMemory" = Some v ->
      py_int v = Return n ->
      MemoryMetricTask.makeMeasurement config memory lg = (Raise ex, lg)).
Proof.
  intros Hname. repeat apply conj.
  - intros lg. run_task. rewrite Hname. reflexivity.
  - intros lg. run_task. rewrite Hname. reflexivity.
  - intros timings s e d lg Hs He Hd.
    rewrite (timing_some_present config timings s e lg Hs He).
    + rewrite Hd, Hname. reflexivity.
    + destruct s; try reflexivity. destruct e; try reflexivity.
      rewrite py_sub_None_l in Hd. discriminate.
  - intros memory v n lg Hv Hn.
    rewrite (memory_present config memory v lg Hv).
    + rewrite Hn, Hname. reflexivity.
    + destruct v; try reflexivity. discriminate.
Qed.


(** C10 (amended).  [MemoryMetricTask.makeMeasurement] accepts what
    [int()] accepts, as long as the converted number (times the page size
    on the platforms that count pages) is within the range of a double:
    with a metric that parses as a name, such a value gives a measurement
    of the converted number with the units of the platform, and a
    [MetricComputationError] is raised only for a value [int()] rejects.
    [int()] truncates a float toward zero and reads a string of decimal
    digits, within the digit limit, as the number it denotes. *)
Theorem memory_accepts_what_int_accepts config memory v name lg :
  memory !! "EndMemory" = Some v ->
  wf_value v = true ->
  Name (metric config) = Return name ->
  (forall n, py_int v = Return n ->
     fits_double (VInt (page_scaled n)) = true ->
     exists q meas,
       MemoryMetricTask._addUnits n lg = (Return q, lg) /\
       q = {| q_value := float_of_Z (page_scaled n); q_unit := memory_unit |} /\
       MemoryMetricTask.makeMeasurement config memory lg = (Return (Some meas), lg) /\
       metric_name meas = name /\
       quantity meas = q /\
       notes meas !! "estimator" = Some "pipe.base.timeMethod") /\
  (forall text cause lg',
     MemoryMetricTask.makeMeasurement config memory lg
       = (Raise (MetricComputationError text cause), lg') ->
     exists ex, py_int v = Raise ex) /\
  (forall sg m e,
     py_int (VFloat (S754_finite sg m e))
       = Return (Z.quot (cond_Zopp sg (Zpos m * 2 ^ Z.max e 0)) (2 ^ Z.max (- e) 0))) /\
  (forall ds, ds <> [] -> Forall is_digit ds ->
     exceeds_digit_limit (Z.of_nat (length ds)) = false ->
     py_int (VStr (decimal_string ds)) = Return (decimal_value ds)).
Proof.
  intros Hv _ Hname. repeat apply conj.
  - intros n Hn Hfit.
    exists {| q_value := float_of_Z (page_scaled n); q_unit := memory_unit |},
           (annotated name {| q_value := float_of_Z (page_scaled n); q_unit := memory_unit |}).
    split; [exact (addUnits_fits n lg Hfit)|]. split; [reflexivity|].
    split; [exact (memory_converted config memory v n name lg Hv Hn Hfit Hname)|].
    apply annotated_estimator.
  - intros text cause lg' Hrun.
    destruct (is_not_None v) eqn:Hp.
    + rewrite (memory_present config memory v lg Hv Hp) in Hrun.
      destruct (py_int v) as [n|ex]; [|eauto].
      rewrite Hname in Hrun.
      destruct (addUnits_outcome n lg) as [[q Hq]|Hq]; rewrite Hq in Hrun; discriminate.
    + destruct v; try discriminate. eauto.
  - intros sg m e. apply float_trunc_quot.
  - intros ds Hne Hds Hlim. cbn [py_int].
    rewrite (int_of_str_decimal ds Hne Hds Hlim). reflexivity.
Qed.
End Claims.

(** * The model on the inputs of the test suite *)

Example int_of_str_examples :
  @int_of_str linux "1024" = Some 1024 /\
  @int_of_str linux " -1_000 " = Some (-1000) /\
  @int_of_str linux "007" = Some 7 /\
  @int_of_str linux "12345.0" = None /\
  @int_of_str linux "1__0" = None /\
  @int_of_str linux "- 1" = None /\
  @int_of_str linux "" = None /\
  @int_of_str linux (String (ascii_of_nat 9) "12") = Some 12 /\
  @int_of_str linux (String (ascii_of_nat 31) "12") = None.
Proof. repeat apply conj; reflexivity. Qed.

(** The digit limit: 4301 digits are refused where the limit is 4300 and
    accepted where there is none. *)
Example digit_limit_examples :
  @int_of_str linux (string_of_list_ascii (repeat "1"%char 4301)) = None /\
  @int_of_str linux (string_of_list_ascii (repeat "0"%char 4300)) = Some 0 /\
  @int_of_str sunos (string_of_list_ascii (repeat "0"%char 4301)) = Some 0.
Proof. repeat apply conj; vm_compute; reflexivity. Qed.

Example float_of_Z_examples :
  float_of_Z 4 = f_4 /\
  float_of_Z 9007199254740995 = f_2p53_4 /\
  PyLong_AsDouble (2 ^ 1024 - 2 ^ 970 - 1)
    = Return (S754_finite false 9007199254740991 971) /\
  PyLong_AsDouble (2 ^ 1024 - 2 ^ 970) = Raise OverflowError.
Proof. repeat apply conj; reflexivity. Qed.

Example py_int_examples :
  @py_int linux (VFloat f_1_5) = Return 1 /\
  @py_int linux (VFloat (SFopp f_1_5)) = Return (-1) /\
  @py_int linux (VFloat S754_nan) = Raise ValueError /\
  @py_int linux (VBool true) = Return 1 /\
  @py_int linux VNone = Raise TypeError.
Proof. repeat apply conj; reflexivity. Qed.

(** An integer times a unit is a float64: 2^53 + 1 is rounded and an
    integer beyond the range of a double is refused. *)
Example mul_unit_examples :
  mul_unit (VInt 3) u_second = Return {| q_value := float_of_Z 3; q_unit := u_second |} /\
  mul_unit (VInt (2 ^ 53 + 1)) u_second
    = Return {| q_value := float_of_Z (2 ^ 53); q_unit := u_second |} /\
  mul_unit (VFloat f_1_5) u_second = Return {| q_value := f_1_5; q_unit := u_second |} /\
  mul_unit (VInt (10 ^ 400)) u_second = Raise OverflowError.
Proof. repeat apply conj; reflexivity. Qed.

(** testBadlyTypedKeys of both suites: the value is replaced by the text
    of a double. *)
Example testBadlyTypedKeys :
  @TimingMetricTask.makeMeasurement dotted timing_config
      (timings_of (VFloat f_1_5) (VStr "4.0")) []
    = (Raise (MetricComputationError "Invalid metadata" None), []) /\
  @MemoryMetricTask.makeMeasurement dotted linux memory_config
      (memory_of (VStr "12345.0")) []
    = (Raise (MetricComputationError "Invalid metadata" (Some ValueError)), []).
Proof. split; reflexivity. Qed.

(** testMissingData and testRunDifferentMethod: no value is found. *)
Example testMissingData :
  @MemoryMetricTask.makeMeasurement dotted linux memory_config (memory_of VNone) []
    = (Return None,
       [{| level := INFO;
           message := "Nothing to do: no memory information for NotARealTask.run found." |}]).
Proof. reflexivity. Qed.

(** A dictionary without the expected key: the lookup raises. *)
Example missing_key_raises :
  @TimingMetricTask.makeMeasurement dotted timing_config ∅ []
    = (Raise (KeyError "StartTime"), []).
Proof. reflexivity. Qed.

(** * The claims on concrete inputs

    The tasks run with the sample name parser [dotted] and the sample
    platforms. *)

Lemma timing_measurement_is_difference_witness :
  duration_defined (VFloat f_4) (VFloat f_1_5) = true /\
  (@TimingMetricTask.getInputMetadataKeys timing_config !! "StartTime"
     = Some "NotARealTask.runStartCpuTime" /\
   @TimingMetricTask.getInputMetadataKeys timing_config !! "EndTime"
     = Some "NotARealTask.runEndCpuTime" /\
   exists d f meas,
     py_sub (VFloat f_4) (VFloat f_1_5) = Return d /\
     to_float d = Return f /\
     @TimingMetricTask.makeMeasurement dotted timing_config
         (timings_of (VFloat f_1_5) (VFloat f_4)) []
       = (Return (Some meas), []) /\
     @metric_name dotted meas = ("verify", "DummyTime") /\
     @quantity dotted meas = {| q_value := f; q_unit := u_second |} /\
     @notes dotted meas !! "estimator" = Some "pipe.base.timeMethod" /\
     (forall x, d = VFloat x -> f = x) /\
     (forall n, d = VInt n -> Z.abs n < 2 ^ 53 -> Z_compare_float n f = Some Eq)).
Proof.
  split; [reflexivity|].
  apply (@timing_measurement_is_difference dotted timing_config
           (timings_of (VFloat f_1_5) (VFloat f_4)) (VFloat f_1_5) (VFloat f_4)
           ("verify", "DummyTime") []); reflexivity.
Defined.

(** C1 as stated fails: both values are numbers, yet the subtraction of a
    float from an integer beyond the range of a double raises
    [OverflowError], which [except TypeError] does not catch. *)
Lemma timing_int_overflow_counterexample :
  is_numeric (VFloat (S754_zero false)) = true /\
  is_numeric (VInt (10 ^ 400)) = true /\
  @Name dotted (metric timing_config) = Return ("verify", "DummyTime") /\
  @TimingMetricTask.makeMeasurement dotted timing_config
      (timings_of (VFloat (S754_zero false)) (VInt (10 ^ 400))) []
    = (Raise OverflowError, []).
Proof. repeat apply conj; reflexivity. Qed.

Lemma measurement_iff_values_usable_witness :
  (exists meas lg',
      @TimingMetricTask.makeMeasurement dotted timing_config
          (timings_of (VFloat f_1_5) (VFloat f_4)) []
        = (Return (Some meas), lg')) /\
  (exists meas lg',
      @MemoryMetricTask.makeMeasurement dotted linux timing_config
          (memory_of (VStr "1024")) []
        = (Return (Some meas), lg')) /\
  @TimingMetricTask.makeMeasurement dotted timing_config
      (timings_of VNone (VFloat f_4)) []
    = (Raise (MetricComputationError "Invalid metadata" None), []).
Proof.
  destruct (@measurement_iff_values_usable dotted linux timing_config
              (timings_of (VFloat f_1_5) (VFloat f_4)) (memory_of (VStr "1024"))
              (VFloat f_1_5) (VFloat f_4) (VStr "1024") ("verify", "DummyTime") [])
    as (Htiming & Hmemory & _); try reflexivity.
  destruct (@measurement_iff_values_usable dotted linux timing_config
              (timings_of VNone (VFloat f_4)) (memory_of (VStr "1024"))
              VNone (VFloat f_4) (VStr "1024") ("verify", "DummyTime") [])
    as (_ & _ & Hpartial); try reflexivity.
  split; [apply Htiming; reflexivity|].
  split; [apply Hmemory; reflexivity|].
  apply Hpartial. discriminate.
Defined.

(** C2 as stated fails: with the start value absent and the end value
    present the task does not answer as for absent data ([None], no
    error); it raises. *)
Lemma partial_presence_counterexample :
  is_not_None VNone = false /\
  is_not_None (VFloat f_1_5) = true /\
  @TimingMetricTask.makeMeasurement dotted timing_config
      (timings_of VNone (VFloat f_1_5)) []
    = (Raise (MetricComputationError "Invalid metadata" None), []) /\
  @TimingMetricTask.makeMeasurement dotted timing_config
      (timings_of VNone VNone) []
    = (Return None,
       [{| level := INFO;
           message := "Nothing to do: no timing information for NotARealTask.run found." |}]).
Proof. repeat apply conj; reflexivity. Qed.

Lemma timing_partial_presence_raises_witness :
  @TimingMetricTask.makeMeasurement dotted timing_config
      (timings_of VNone (VFloat f_1_5)) []
    = (Raise (MetricComputationError "Invalid metadata" None), []) /\
  @TimingMetricTask.makeMeasurement dotted timing_config
      (timings_of (VFloat f_1_5) VNone) []
    = (Raise (MetricComputationError "Invalid metadata" None), []).
Proof.
  split.
  - apply (@timing_partial_presence_raises dotted timing_config
             (timings_of VNone (VFloat f_1_5)) VNone (VFloat f_1_5) []);
      [reflexivity|reflexivity|left; split; [reflexivity|discriminate]].
  - apply (@timing_partial_presence_raises dotted timing_config
             (timings_of (VFloat f_1_5) VNone) (VFloat f_1_5) VNone []);
      [reflexivity|reflexivity|right; split; [discriminate|reflexivity]].
Defined.



Lemma timing_both_absent_no_measurement_witness :
  @TimingMetricTask.makeMeasurement dotted timing_config (timings_of VNone VNone) []
    = (Return None,
       [{| level := INFO;
           message := "Nothing to do: no timing information for NotARealTask.run found." |}]).
Proof.
  apply (@timing_both_absent_no_measurement dotted timing_config
           (timings_of VNone VNone) []); reflexivity.
Defined.

Lemma metric_name_error_propagates_witness :
  @Name dotted (metric bad_metric_config) = Raise TypeError /\
  @TimingMetricTask.makeMeasurement dotted bad_metric_config
      (timings_of (VFloat f_1_5) (VFloat f_4)) []
    = (Raise TypeError, []) /\
  @MemoryMetricTask.makeMeasurement dotted linux bad_metric_config
      (memory_of (VInt 1024)) []
    = (Raise TypeError, []).
Proof.
  split; [reflexivity|].
  destruct (@metric_name_error_propagates dotted linux bad_metric_config TypeError)
    as (_ & _ & Htiming & Hmemory); [reflexivity|].
  split.
  - apply (Htiming (timings_of (VFloat f_1_5) (VFloat f_4)) (VFloat f_1_5) (VFloat f_4)
             (VFloat (float_sub f_4 f_1_5)) []); reflexivity.
  - apply (Hmemory (memory_of (VInt 1024)) (VInt 1024) 1024 []); reflexivity.
Defined.



Lemma memory_accepts_what_int_accepts_witness :
  @py_int linux (VStr "1024") = Return 1024 /\
  exists q meas,
    @MemoryMetricTask._addUnits linux 1024 [] = (Return q, []) /\
    q = {| q_value := float_of_Z 1024; q_unit := u_kibibyte |} /\
    @MemoryMetricTask.makeMeasurement dotted linux memory_config (memory_of (VStr "1024")) []
      = (Return (Some meas), []) /\
    @metric_name dotted meas = ("verify", "DummyMemory") /\
    @quantity dotted meas = q /\
    @notes dotted meas !! "estimator" = Some "pipe.base.timeMethod".
Proof.
  split; [reflexivity|].
  destruct (@memory_accepts_what_int_accepts dotted linux memory_config
              (memory_of (VStr "1024")) (VStr "1024") ("verify", "DummyMemory") [])
    as (Hacc & _); [reflexivity|reflexivity|reflexivity|].
  apply (Hacc 1024); reflexivity.
Defined.

(** C10 as stated fails: [int()] accepts the integer 10^400, but the
    task gives no measurement for it; the multiplication by the unit
    raises [OverflowError]. *)
Lemma memory_large_int_counterexample :
  @py_int linux (VInt (10 ^ 400)) = Return (10 ^ 400) /\
  @Name dotted (metric memory_config) = Return ("verify", "DummyMemory") /\
  @MemoryMetricTask.makeMeasurement dotted linux memory_config
      (memory_of (VInt (10 ^ 400))) []
    = (Raise OverflowError, []).
Proof. repeat apply conj; reflexivity. Qed.

(** * Further properties of the tasks

    What the two tasks do on every dictionary: which exceptions leave
    them, when they log, which keys they read, and how the measured
    quantity relates to the values. *)

(** ** Metadata keys as strings *)

Lemma list_ascii_of_append (a b : string) :
  list_ascii_of_string (a +:+ b) = list_ascii_of_string a ++ list_ascii_of_string b.
Proof.
  induction a as [|c a IH]; [reflexivity|].
  simpl. f_equal. exact IH.
Qed.

Lemma list_ascii_of_string_inj (a b : string) :
  list_ascii_of_string a = list_ascii_of_string b -> a = b.
Proof.
  intros Heq. rewrite <- (string_of_list_ascii_of_string a), Heq.
  apply string_of_list_ascii_of_string.
Qed.

Lemma append_inv_suffix (a b s : string) : a +:+ s = b +:+ s -> a = b.
Proof.
  intros Heq. apply list_ascii_of_string_inj.
  apply (f_equal list_ascii_of_string) in Heq.
  rewrite !list_ascii_of_append in Heq.
  exact (app_inv_tail _ _ _ Heq).
Qed.

(** Two strings that end differently are different: the ends are compared
    from the last character backwards. *)
Lemma reversed_ends (a b s t : string) :
  a +:+ s = b +:+ t ->
  rev (list_ascii_of_string s) ++ rev (list_ascii_of_string a)
    = rev (list_ascii_of_string t) ++ rev (list_ascii_of_string b).
Proof.
  intros Heq. apply (f_equal list_ascii_of_string) in Heq.
  rewrite !list_ascii_of_append in Heq.
  apply (f_equal (@rev ascii)) in Heq.
  rewrite !rev_app_distr in Heq. exact Heq.
Qed.

Lemma start_key_not_end_key (a b : string) :
  a +:+ "StartCpuTime" <> b +:+ "EndCpuTime".
Proof.
  intros Heq. apply reversed_ends in Heq. cbn in Heq. discriminate Heq.
Qed.

Lemma memory_key_not_start_key (a b : string) :
  a +:+ "EndMaxResidentSetSize" <> b +:+ "StartCpuTime".
Proof.
  intros Heq. apply reversed_ends in Heq. cbn in Heq. discriminate Heq.
Qed.

Lemma memory_key_not_end_key (a b : string) :
  a +:+ "EndMaxResidentSetSize" <> b +:+ "EndCpuTime".
Proof.
  intros Heq. apply reversed_ends in Heq. cbn in Heq. discriminate Heq.
Qed.

(** ** Every run of the tasks *)

Section MoreEvaluation.
Context `{NameParser} `{Platform}.
Implicit Types (config : TimeMethodMetricConfig) (lg : list log_record).
Implicit Types (timings memory : gmap string pyval).

Lemma timing_missing_start config timings lg :
  timings !! "StartTime" = None ->
  TimingMetricTask.makeMeasurement config timings lg = (Raise (KeyError "StartTime"), lg).
Proof. intros Hs. run_task. rewrite Hs. reflexivity. Qed.

Lemma timing_missing_end config timings s lg :
  timings !! "StartTime" = Some s ->
  timings !! "EndTime" = None ->
  TimingMetricTask.makeMeasurement config timings lg = (Raise (KeyError "EndTime"), lg).
Proof.
  intros Hs He. run_task. rewrite Hs, He.
  destruct (is_not_None s); reflexivity.
Qed.

Lemma memory_missing config memory lg :
  memory !! "EndMemory" = None ->
  MemoryMetricTask.makeMeasurement config memory lg = (Raise (KeyError "EndMemory"), lg).
Proof. intros Hv. run_task. rewrite Hv. reflexivity. Qed.

Lemma timing_keys_dom config :
  dom (TimingMetricTask.getInputMetadataKeys config) = {[ "StartTime"; "EndTime" ]}.
Proof.
  unfold TimingMetricTask.getInputMetadataKeys.
  rewrite dom_insert_L, dom_singleton_L. reflexivity.
Qed.

Lemma memory_keys_dom config :
  dom (MemoryMetricTask.getInputMetadataKeys config) = {[ "EndMemory" ]}.
Proof.
  unfold MemoryMetricTask.getInputMetadataKeys. apply dom_singleton_L.
Qed.

(** The four ways a run of the timing task can go, by what the
    dictionary holds. *)
Lemma timing_cases config timings lg :
  (timings !! "StartTime" = None) \/
  (exists s, timings !! "StartTime" = Some s /\ timings !! "EndTime" = None) \/
  (timings !! "StartTime" = Some VNone /\ timings !! "EndTime" = Some VNone) \/
  (exists s e, timings !! "StartTime" = Some s /\ timings !! "EndTime" = Some e /\
               is_not_None s || is_not_None e = true).
Proof.
  destruct (timings !! "StartTime") as [s|]; [|auto].
  destruct (timings !! "EndTime") as [e|]; [|eauto 6].
  destruct (is_not_None s || is_not_None e) eqn:Hp; [eauto 10|].
  apply orb_false_iff in Hp. destruct Hp as [Ps Pe].
  destruct s; try discriminate. destruct e; try discriminate. auto.
Qed.

(** X1.  With a metric that parses as a name, [makeMeasurement] of either
    task raises [KeyError] exactly when the dictionary it is given lacks
    one of the data names that [getInputMetadataKeys] declares; the
    [except] clauses do not catch it. *)
Theorem makeMeasurement_KeyError_iff_key_missing config timings memory name lg :
  Name (metric config) = Return name ->
  ((exists key lg', TimingMetricTask.makeMeasurement config timings lg
                      = (Raise (KeyError key), lg'))
   <-> exists key, key ∈ dom (TimingMetricTask.getInputMetadataKeys config)
                   /\ timings !! key = None) /\
  ((exists key lg', MemoryMetricTask.makeMeasurement config memory lg
                      = (Raise (KeyError key), lg'))
   <-> exists key, key ∈ dom (MemoryMetricTask.getInputMetadataKeys config)
                   /\ memory !! key = None).
Proof.
  intros Hname. rewrite timing_keys_dom, memory_keys_dom. split; split.
  - intros (key & lg' & Hrun).
    destruct (timing_cases config timings lg)
      as [Hs|[(s & Hs & He)|[[Hs He]|(s & e & Hs & He & Hp)]]].
    + exists "StartTime". split; [set_solver|exact Hs].
    + exists "EndTime". split; [set_solver|exact He].
    + rewrite (timing_both_None config timings lg Hs He) in Hrun. discriminate.
    + rewrite (timing_some_present config timings s e lg Hs He Hp), Hname in Hrun.
      destruct (py_sub e s) as [d|ex] eqn:Hd.
      * destruct (mul_unit_numeric d u_second (py_sub_numeric e s d Hd)) as [[q Hq]|Hq];
          rewrite Hq in Hrun; discriminate.
      * destruct (py_sub_raises e s ex Hd) as [-> | ->]; discriminate.
  - intros (key & Hin & Hnone).
    destruct (timings !! "StartTime") as [s|] eqn:Hs.
    + apply elem_of_union in Hin. destruct Hin as [Hin|Hin];
        apply elem_of_singleton in Hin; subst key; [congruence|].
      eexists _, _. exact (timing_missing_end config timings s lg Hs Hnone).
    + eexists _, _. exact (timing_missing_start config timings lg Hs).
  - intros (key & lg' & Hrun).
    destruct (memory !! "EndMemory") as [v|] eqn:Hv.
    + destruct (is_not_None v) eqn:Hp.
      * rewrite (memory_present config memory v lg Hv Hp), Hname in Hrun.
        destruct (py_int v) as [n|ex] eqn:Hn.
        -- destruct (addUnits_outcome n lg) as [[q Hq]|Hq]; rewrite Hq in Hrun; discriminate.
        -- destruct (py_int_raises v ex Hn) as [-> | [-> | ->]]; discriminate.
      * destruct v; try discriminate.
        rewrite (memory_None config memory lg Hv) in Hrun. discriminate.
    + exists "EndMemory". split; [set_solver|exact Hv].
  - intros (key & Hin & Hnone).
    apply elem_of_singleton in Hin. subst key.
    eexists _, _. exact (memory_missing config memory lg Hnone).
Qed.

(** X2.  With both keys in the dictionary and a metric that parses as a
    name, [TimingMetricTask.makeMeasurement] raises
    [MetricComputationError] exactly when at least one value is present
    and the two values are not both numbers (a string, or a [None] beside
    a value). *)
Theorem timing_computation_error_iff config timings s e name lg :
  timings !! "StartTime" = Some s ->
  timings !! "EndTime" = Some e ->
  Name (metric config) = Return name ->
  (exists cause lg', TimingMetricTask.makeMeasurement config timings lg
                       = (Raise (MetricComputationError "Invalid metadata" cause), lg'))
  <-> (is_not_None s || is_not_None e) && negb (is_numeric e && is_numeric s) = true.
Proof.
  intros Hs He Hname. split.
  - intros (cause & lg' & Hrun).
    destruct (is_not_None s || is_not_None e) eqn:Hp.
    + rewrite (timing_some_present config timings s e lg Hs He Hp), Hname in Hrun.
      destruct (py_sub e s) as [d|ex] eqn:Hd.
      * destruct (mul_unit_numeric d u_second (py_sub_numeric e s d Hd)) as [[q Hq]|Hq];
          rewrite Hq in Hrun; discriminate.
      * destruct (py_sub_raises e s ex Hd) as [-> | ->]; [|discriminate].
        apply py_sub_TypeError in Hd. rewrite Hd. reflexivity.
    + apply orb_false_iff in Hp. destruct Hp as [Ps Pe].
      destruct s; try discriminate. destruct e; try discriminate.
      rewrite (timing_both_None config timings lg Hs He) in Hrun. discriminate.
  - intros Hc. apply andb_true_iff in Hc. destruct Hc as [Hp Hn].
    apply negb_true_iff, py_sub_TypeError in Hn.
    rewrite (timing_some_present config timings s e lg Hs He Hp), Hn. eauto.
Qed.

(** X3.  With the key in the dictionary, a value the model stands for
    (an ASCII string, if it is a string) and a metric that parses as a
    name, [MemoryMetricTask.makeMeasurement] raises
    [MetricComputationError] exactly for a nan and for a string that
    [int()] does not convert. *)
Theorem memory_computation_error_iff config memory v name lg :
  memory !! "EndMemory" = Some v ->
  wf_value v = true ->
  Name (metric config) = Return name ->
  (exists cause lg', MemoryMetricTask.makeMeasurement config memory lg
                       = (Raise (MetricComputationError "Invalid metadata" cause), lg'))
  <-> v = VFloat S754_nan \/ exists text, v = VStr text /\ int_of_str text = None.
Proof.
  intros Hv _ Hname. split.
  - intros (cause & lg' & Hrun).
    destruct (is_not_None v) eqn:Hp.
    + rewrite (memory_present config memory v lg Hv Hp), Hname in Hrun.
      destruct (py_int v) as [n|ex] eqn:Hn.
      * destruct (addUnits_outcome n lg) as [[q Hq]|Hq]; rewrite Hq in Hrun; discriminate.
      * destruct v as [|b|m|[sg|sg| |sg m e]|text]; cbn in Hn; try discriminate.
        -- inversion Hn; subst ex. discriminate.
        -- auto.
        -- right. exists text. split; [reflexivity|].
           destruct (int_of_str text); [discriminate|reflexivity].
    + destruct v; try discriminate.
      rewrite (memory_None config memory lg Hv) in Hrun. discriminate.
  - intros [-> | (text & -> & Hbad)].
    + rewrite (memory_present config memory _ lg Hv eq_refl). cbn. eauto.
    + rewrite (memory_bad_string_raises config memory text lg Hv Hbad). eauto.
Qed.

(** X4.  On every input, [makeMeasurement] of either task keeps the
    records already in the log, and appends one INFO record exactly when
    it returns [None]; a run that returns a measurement or raises logs
    nothing. *)
Theorem makeMeasurement_log_frame config timings memory lg :
  logs_only_on_None lg (TimingMetricTask.makeMeasurement config timings lg) /\
  logs_only_on_None lg (MemoryMetricTask.makeMeasurement config memory lg).
Proof.
  unfold logs_only_on_None. split.
  - destruct (timing_cases config timings lg)
      as [Hs|[(s & Hs & He)|[[Hs He]|(s & e & Hs & He & Hp)]]].
    + rewrite (timing_missing_start config timings lg Hs). right. split; [discriminate|reflexivity].
    + rewrite (timing_missing_end config timings s lg Hs He). right. split; [discriminate|reflexivity].
    + rewrite (timing_both_None config timings lg Hs He). left. split; [reflexivity|eauto].
    + rewrite (timing_some_present config timings s e lg Hs He Hp). right.
      destruct (py_sub e s) as [d|[]]; try (split; [discriminate|reflexivity]).
      destruct (Name (metric config)); try (split; [discriminate|reflexivity]).
      destruct (mul_unit d u_second); split; solve [discriminate|reflexivity].
  - destruct (memory !! "EndMemory") as [v|] eqn:Hv.
    + destruct (is_not_None v) eqn:Hp.
      * rewrite (memory_present config memory v lg Hv Hp). right.
        destruct (py_int v) as [n|[]]; try (split; [discriminate|reflexivity]).
        destruct (Name (metric config)); try (split; [discriminate|reflexivity]).
        destruct (addUnits_outcome n lg) as [[q ->]| ->]; split; solve [discriminate|reflexivity].
      * destruct v; try discriminate.
        rewrite (memory_None config memory lg Hv). left. split; [reflexivity|eauto].
    + rewrite (memory_missing config memory lg Hv). right. split; [discriminate|reflexivity].
Qed.

Lemma timing_depends_on_two_keys config timings timings' lg :
  timings !! "StartTime" = timings' !! "StartTime" ->
  timings !! "EndTime" = timings' !! "EndTime" ->
  TimingMetricTask.makeMeasurement config timings lg
    = TimingMetricTask.makeMeasurement config timings' lg.
Proof.
  intros Hs He. run_task. rewrite Hs, He. reflexivity.
Qed.

Lemma memory_depends_on_one_key config memory memory' lg :
  memory !! "EndMemory" = memory' !! "EndMemory" ->
  MemoryMetricTask.makeMeasurement config memory lg
    = MemoryMetricTask.makeMeasurement config memory' lg.
Proof.
  intros Hv. run_task. rewrite Hv. reflexivity.
Qed.

(** X5.  [makeMeasurement] reads the dictionary only at the data names
    that [getInputMetadataKeys] declares: two dictionaries that agree on
    them give the same result and the same log, whatever else they
    hold. *)
Theorem makeMeasurement_reads_declared_keys_only config timings timings' memory memory' lg :
  (forall key, key ∈ dom (TimingMetricTask.getInputMetadataKeys config) ->
               timings !! key = timings' !! key) ->
  (forall key, key ∈ dom (MemoryMetricTask.getInputMetadataKeys config) ->
               memory !! key = memory' !! key) ->
  TimingMetricTask.makeMeasurement config timings lg
    = TimingMetricTask.makeMeasurement config timings' lg /\
  MemoryMetricTask.makeMeasurement config memory lg
    = MemoryMetricTask.makeMeasurement config memory' lg.
Proof.
  rewrite timing_keys_dom, memory_keys_dom. intros Ht Hm. split.
  - apply timing_depends_on_two_keys; apply Ht; set_solver.
  - apply memory_depends_on_one_key; apply Hm; set_solver.
Qed.

(** X6.  The configured target reaches the result of [makeMeasurement]
    only through the text of the log record: two configurations with the
    same metric give the same measurement, [None] or exception on the same
    dictionary. *)
Theorem makeMeasurement_target_only_in_log config config' timings memory lg :
  metric config = metric config' ->
  fst (TimingMetricTask.makeMeasurement config timings lg)
    = fst (TimingMetricTask.makeMeasurement config' timings lg) /\
  fst (MemoryMetricTask.makeMeasurement config memory lg)
    = fst (MemoryMetricTask.makeMeasurement config' memory lg).
Proof.
  intros Hm. split.
  - destruct (timing_cases config timings lg)
      as [Hs|[(s & Hs & He)|[[Hs He]|(s & e & Hs & He & Hp)]]].
    + rewrite !(timing_missing_start _ timings lg Hs). reflexivity.
    + rewrite !(timing_missing_end _ timings s lg Hs He). reflexivity.
    + rewrite !(timing_both_None _ timings lg Hs He). reflexivity.
    + rewrite !(timing_some_present _ timings s e lg Hs He Hp), Hm. reflexivity.
  - destruct (memory !! "EndMemory") as [v|] eqn:Hv.
    + destruct (is_not_None v) eqn:Hp.
      * rewrite !(memory_present _ memory v lg Hv Hp), Hm. reflexivity.
      * destruct v; try discriminate.
        rewrite !(memory_None _ memory lg Hv). reflexivity.
    + rewrite !(memory_missing _ memory lg Hv). reflexivity.
Qed.

(** X7.  The metadata keys of [getInputMetadataKeys] identify the target
    and the datum: two configurations have the same start key (end key,
    memory key) exactly when they have the same target, and whatever the
    targets a start key is never an end key and a memory key is never a
    timing key. *)
Theorem metadata_keys_distinct config config' :
  (TimingMetricTask.getInputMetadataKeys config !! "StartTime"
     = TimingMetricTask.getInputMetadataKeys config' !! "StartTime"
   <-> target config = target config') /\
  (TimingMetricTask.getInputMetadataKeys config !! "EndTime"
     = TimingMetricTask.getInputMetadataKeys config' !! "EndTime"
   <-> target config = target config') /\
  (MemoryMetricTask.getInputMetadataKeys config !! "EndMemory"
     = MemoryMetricTask.getInputMetadataKeys config' !! "EndMemory"
   <-> target config = target config') /\
  TimingMetricTask.getInputMetadataKeys config !! "StartTime"
    <> TimingMetricTask.getInputMetadataKeys config' !! "EndTime" /\
  MemoryMetricTask.getInputMetadataKeys config !! "EndMemory"
    <> TimingMetricTask.getInputMetadataKeys config' !! "StartTime" /\
  MemoryMetricTask.getInputMetadataKeys config !! "EndMemory"
    <> TimingMetricTask.getInputMetadataKeys config' !! "EndTime".
Proof.
  assert (Hstart : forall c, TimingMetricTask.getInputMetadataKeys c !! "StartTime"
                             = Some (target c +:+ "StartCpuTime"))
    by (intros c; apply lookup_insert_eq).
  assert (Hend : forall c, TimingMetricTask.getInputMetadataKeys c !! "EndTime"
                           = Some (target c +:+ "EndCpuTime")).
  { intros c. unfold TimingMetricTask.getInputMetadataKeys.
    rewrite lookup_insert_ne by discriminate. apply lookup_singleton_eq. }
  assert (Hmem : forall c, MemoryMetricTask.getInputMetadataKeys c !! "EndMemory"
                           = Some (target c +:+ "EndMaxResidentSetSize"))
    by (intros c; apply lookup_singleton_eq).
  rewrite !Hstart, !Hend, !Hmem.
  repeat apply conj.
  - intros Heq. inversion Heq as [Happ]. exact (append_inv_suffix _ _ _ Happ).
  - intros ->. reflexivity.
  - intros Heq. inversion Heq as [Happ]. exact (append_inv_suffix _ _ _ Happ).
  - intros ->. reflexivity.
  - intros Heq. inversion Heq as [Happ]. exact (append_inv_suffix _ _ _ Happ).
  - intros ->. reflexivity.
  - intros Heq. inversion Heq as [Happ]. exact (start_key_not_end_key _ _ Happ).
  - intros Heq. inversion Heq as [Happ]. exact (memory_key_not_start_key _ _ Happ).
  - intros Heq. inversion Heq as [Happ]. exact (memory_key_not_end_key _ _ Happ).
Qed.

(** X8.  For two values that are converted without rounding (two
    floats, a float and an integer below 2^53 in magnitude, or two
    integers whose difference is within the range of a double) and a
    metric that parses as a name, the timing task returns a measurement
    whose duration is negative exactly when EndTime < StartTime and
    positive exactly when EndTime > StartTime. *)
Theorem timing_duration_sign config timings s e name lg :
  timings !! "StartTime" = Some s ->
  timings !! "EndTime" = Some e ->
  wf_value s = true ->
  wf_value e = true ->
  exact_operands e s = true ->
  Name (metric config) = Return name ->
  exists f meas,
    TimingMetricTask.makeMeasurement config timings lg = (Return (Some meas), lg) /\
    quantity meas = {| q_value := f; q_unit := u_second |} /\
    is_negative (VFloat f) = py_lt e s /\
    is_positive (VFloat f) = py_lt s e.
Proof.
  intros Hs He Ws We Hex Hname.
  destruct (proj1 (duration_defined_iff e s) (exact_operands_defined e s Hex))
    as (d & f & Hd & Hf).
  exists f, (annotated name {| q_value := f; q_unit := u_second |}).
  split; [exact (timing_numbers config timings s e d f name lg Hs He Hd Hf Hname)|].
  split; [reflexivity|].
  exact (duration_order e s d f Ws We Hex Hd Hf).
Qed.

(** X9.  For a value that [int()] converts to [n], a metric that parses
    as a name and a positive page size, with [n] (times the page size on
    the platforms that count pages) within the range of a double, the
    memory measurement is in bytes or kibibytes and has the sign of [n]:
    a positive raw value gives a positive measurement on every platform.
    Below 2^53 the quantity equals the scaled integer. *)
Theorem memory_measurement_sign config memory v n name lg :
  memory !! "EndMemory" = Some v ->
  py_int v = Return n ->
  Name (metric config) = Return name ->
  0 < getpagesize ->
  fits_double (VInt (page_scaled n)) = true ->
  exists meas,
    MemoryMetricTask.makeMeasurement config memory lg = (Return (Some meas), lg) /\
    (q_unit (quantity meas) = u_byte \/ q_unit (quantity meas) = u_kibibyte) /\
    float_sign (q_value (quantity meas)) = Some (n ?= 0) /\
    (Z.abs (page_scaled n) < 2 ^ 53 ->
     Z_compare_float (page_scaled n) (q_value (quantity meas)) = Some Eq).
Proof.
  intros Hv Hn Hname Hpage Hfit.
  rewrite (memory_converted config memory v n name lg Hv Hn Hfit Hname).
  eexists. split; [reflexivity|]. cbn [quantity annotated set_note q_unit q_value].
  repeat apply conj.
  - unfold memory_unit.
    destruct (startswith sys_platform "darwin");
      [|destruct (startswith sys_platform "sunos" || startswith sys_platform "solaris")];
      auto.
  - assert (Hconv : PyLong_AsDouble (page_scaled n) = Return (float_of_Z (page_scaled n))).
    { unfold fits_double, as_int in Hfit. unfold PyLong_AsDouble.
      destruct (float_of_Z (page_scaled n)); try reflexivity. discriminate. }
    rewrite (PyLong_AsDouble_sign _ _ Hconv). f_equal.
    unfold page_scaled.
    destruct (startswith sys_platform "darwin");
      [|destruct (startswith sys_platform "sunos" || startswith sys_platform "solaris")];
      try reflexivity.
    destruct (Z.compare_spec n 0) as [->|Hlt|Hgt].
    + reflexivity.
    + apply Z.compare_lt_iff. nia.
    + apply Z.compare_gt_iff. nia.
  - intros Hsmall. apply (float_of_Z_small _ Hsmall).
Qed.

(** X10.  An exception that leaves [makeMeasurement] of either task is a
    [KeyError], a [MetricComputationError] with the message
    "Invalid metadata", an [OverflowError], or the exception the name
    parser raised on the configured metric: a [TypeError] or [ValueError]
    of the data never escapes. *)
Theorem makeMeasurement_exceptions config timings memory lg (ex : exn) :
  ((exists lg', TimingMetricTask.makeMeasurement config timings lg = (Raise ex, lg')) ->
   own_exception ex \/ Name (metric config) = Raise ex) /\
  ((exists lg', MemoryMetricTask.makeMeasurement config memory lg = (Raise ex, lg')) ->
   own_exception ex \/ Name (metric config) = Raise ex).
Proof.
  unfold own_exception. split; intros (lg' & Hrun).
  - destruct (timing_cases config timings lg)
      as [Hs|[(s & Hs & He)|[[Hs He]|(s & e & Hs & He & Hp)]]].
    + rewrite (timing_missing_start config timings lg Hs) in Hrun.
      inversion Hrun; eauto.
    + rewrite (timing_missing_end config timings s lg Hs He) in Hrun.
      inversion Hrun; eauto.
    + rewrite (timing_both_None config timings lg Hs He) in Hrun. discriminate.
    + rewrite (timing_some_present config timings s e lg Hs He Hp) in Hrun.
      destruct (py_sub e s) as [d|ex'] eqn:Hd.
      * destruct (Name (metric config)) as [name|ex'']; [|inversion Hrun; auto].
        destruct (mul_unit_numeric d u_second (py_sub_numeric e s d Hd)) as [[q Hq]|Hq];
          rewrite Hq in Hrun; inversion Hrun; auto.
      * destruct (py_sub_raises e s ex' Hd) as [-> | ->]; inversion Hrun; eauto 6.
  - destruct (memory !! "EndMemory") as [v|] eqn:Hv.
    + destruct (is_not_None v) eqn:Hp.
      * rewrite (memory_present config memory v lg Hv Hp) in Hrun.
        destruct (py_int v) as [n|ex'] eqn:Hn.
        -- destruct (Name (metric config)) as [name|ex'']; [|inversion Hrun; auto].
           destruct (addUnits_outcome n lg) as [[q Hq]|Hq];
             rewrite Hq in Hrun; inversion Hrun; auto.
        -- destruct (py_int_raises v ex' Hn) as [-> | [-> | ->]]; inversion Hrun; eauto 6.
      * destruct v; try discriminate.
        rewrite (memory_None config memory lg Hv) in Hrun. discriminate.
    + rewrite (memory_missing config memory lg Hv) in Hrun. inversion Hrun; eauto.
Qed.
End MoreEvaluation.

(** ** The further properties on concrete inputs *)

Lemma makeMeasurement_KeyError_iff_key_missing_witness :
  ((exists key lg', @TimingMetricTask.makeMeasurement dotted timing_config ∅ []
                      = (Raise (KeyError key), lg'))
   <-> exists key, key ∈ dom (TimingMetricTask.getInputMetadataKeys timing_config)
                   /\ (∅ : gmap string pyval) !! key = None) /\
  ((exists key lg', @MemoryMetricTask.makeMeasurement dotted linux timing_config
                        (memory_of (VInt 1024)) []
                      = (Raise (KeyError key), lg'))
   <-> exists key, key ∈ dom (MemoryMetricTask.getInputMetadataKeys timing_config)
                   /\ memory_of (VInt 1024) !! key = None).
Proof.
  apply (@makeMeasurement_KeyError_iff_key_missing dotted linux timing_config
           ∅ (memory_of (VInt 1024)) ("verify", "DummyTime") []).
  reflexivity.
Defined.

Lemma timing_computation_error_iff_witness :
  (exists cause lg',
      @TimingMetricTask.makeMeasurement dotted timing_config
          (timings_of (VFloat f_1_5) (VStr "4.0")) []
        = (Raise (MetricComputationError "Invalid metadata" cause), lg'))
  <-> (is_not_None (VFloat f_1_5) || is_not_None (VStr "4.0"))
      && negb (is_numeric (VStr "4.0") && is_numeric (VFloat f_1_5)) = true.
Proof.
  apply (@timing_computation_error_iff dotted timing_config
           (timings_of (VFloat f_1_5) (VStr "4.0")) (VFloat f_1_5) (VStr "4.0")
           ("verify", "DummyTime") []); reflexivity.
Defined.

Lemma memory_computation_error_iff_witness :
  (exists cause lg',
      @MemoryMetricTask.makeMeasurement dotted linux memory_config
          (memory_of (VStr "12345.0")) []
        = (Raise (MetricComputationError "Invalid metadata" cause), lg'))
  <-> VStr "12345.0" = VFloat S754_nan \/
      exists text, VStr "12345.0" = VStr text /\ @int_of_str linux text = None.
Proof.
  apply (@memory_computation_error_iff dotted linux memory_config
           (memory_of (VStr "12345.0")) (VStr "12345.0") ("verify", "DummyMemory") []);
    reflexivity.
Defined.

Lemma makeMeasurement_reads_declared_keys_only_witness :
  @TimingMetricTask.makeMeasurement dotted timing_config
      (timings_of (VFloat f_1_5) (VFloat f_4)) []
    = @TimingMetricTask.makeMeasurement dotted timing_config
        (<["quantity" := VInt 7]> (timings_of (VFloat f_1_5) (VFloat f_4))) [] /\
  @MemoryMetricTask.makeMeasurement dotted linux timing_config (memory_of (VInt 1024)) []
    = @MemoryMetricTask.makeMeasurement dotted linux timing_config
        (<["StartTime" := VFloat f_1_5]> (memory_of (VInt 1024))) [].
Proof.
  apply (@makeMeasurement_reads_declared_keys_only dotted linux timing_config).
  - intros key Hin. rewrite lookup_insert_ne; [reflexivity|].
    intros <-. revert Hin. vm_compute. discriminate.
  - intros key Hin. rewrite lookup_insert_ne; [reflexivity|].
    intros <-. revert Hin. vm_compute. discriminate.
Defined.

Lemma makeMeasurement_target_only_in_log_witness :
  fst (@TimingMetricTask.makeMeasurement dotted timing_config (timings_of VNone VNone) [])
    = fst (@TimingMetricTask.makeMeasurement dotted other_target_config
             (timings_of VNone VNone) []) /\
  fst (@MemoryMetricTask.makeMeasurement dotted linux timing_config
         (memory_of (VInt 1024)) [])
    = fst (@MemoryMetricTask.makeMeasurement dotted linux other_target_config
             (memory_of (VInt 1024)) []).
Proof.
  apply (@makeMeasurement_target_only_in_log dotted linux timing_config other_target_config).
  reflexivity.
Defined.

Lemma timing_duration_sign_witness :
  py_lt (VFloat f_1_5) (VFloat f_4) = true /\
  exists f meas,
    @TimingMetricTask.makeMeasurement dotted timing_config
        (timings_of (VFloat f_1_5) (VFloat f_4)) []
      = (Return (Some meas), []) /\
    @quantity dotted meas = {| q_value := f; q_unit := u_second |} /\
    is_negative (VFloat f) = py_lt (VFloat f_4) (VFloat f_1_5) /\
    is_positive (VFloat f) = py_lt (VFloat f_1_5) (VFloat f_4).
Proof.
  split; [reflexivity|].
  apply (@timing_duration_sign dotted timing_config
           (timings_of (VFloat f_1_5) (VFloat f_4)) (VFloat f_1_5) (VFloat f_4)
           ("verify", "DummyTime") []); reflexivity.
Defined.

Lemma memory_measurement_sign_witness :
  exists meas,
    @MemoryMetricTask.makeMeasurement dotted sunos memory_config
        (memory_of (VStr "1024")) []
      = (Return (Some meas), []) /\
    (q_unit (@quantity dotted meas) = u_byte \/
     q_unit (@quantity dotted meas) = u_kibibyte) /\
    float_sign (q_value (@quantity dotted meas)) = Some (1024 ?= 0) /\
    (Z.abs (@page_scaled sunos 1024) < 2 ^ 53 ->
     Z_compare_float (@page_scaled sunos 1024) (q_value (@quantity dotted meas)) = Some Eq).
Proof.
  apply (@memory_measurement_sign dotted sunos memory_config
           (memory_of (VStr "1024")) (VStr "1024") 1024 ("verify", "DummyMemory") []);
    reflexivity.
Defined.
